(** * RAW Organizer: a shallow embedding of [raw_organizer.py]

    The program scans a directory tree, sorts the files it finds into JPG
    and RAW collections by extension, and removes the files of one
    collection whose stem has no counterpart in the other.

    Strings are byte strings ([string]); Python sets of strings are
    [gset string]; Python lists are [list]; the file system, standard
    input and everything the program prints are threaded through a small
    state-and-exception monad. *)

From Stdlib Require Import Ascii String DecimalString.
From stdpp Require Import base decidable list gmap strings sets.

Local Open Scope string_scope.
Local Open Scope list_scope.

#[local] Set Warnings "-clear-no-such-hyp".

(** ** Python [str] operations used by the program *)

Module Str.

(** [str.lower] on the ASCII range: the letters [A]..[Z] move to
    [a]..[z], every other byte is kept.  The literals the program
    compares lower-cased text with ([.jpg], [yes], ...) contain no letter
    that a non-ASCII character lower-cases to. *)
Definition lower_char (c : ascii) : ascii :=
  let n := nat_of_ascii c in
  if (65 <=? n)%nat && (n <=? 90)%nat then ascii_of_nat (n + 32) else c.

Fixpoint lower (s : string) : string :=
  match s with
  | EmptyString => EmptyString
  | String c s' => String (lower_char c) (lower s')
  end.

(** [s.rfind(c)]: the highest index at which [c] occurs; Python's [-1]
    is [None]. *)
Fixpoint rfind (c : ascii) (s : string) : option nat :=
  match s with
  | EmptyString => None
  | String x s' =>
      match rfind c s' with
      | Some i => Some (S i)
      | None => if Ascii.eqb x c then Some 0%nat else None
      end
  end.

(** The slices [s[:i]] and [s[i:]]. *)
Definition take (i : nat) (s : string) : string := substring 0 i s.
Definition drop (i : nat) (s : string) : string :=
  substring i (String.length s - i) s.

(** [str(n)] for a length. *)
Definition of_nat (n : nat) : string :=
  NilEmpty.string_of_uint (Nat.to_uint n).

(** [s * n] *)
Fixpoint repeat (s : string) (n : nat) : string :=
  match n with
  | O => EmptyString
  | S n' => s +:+ repeat s n'
  end.

Definition nl : string := String (ascii_of_nat 10) EmptyString.

(** [x in [a, b, ...]] on a list of strings. *)
Definition in_list (x : string) (l : list string) : bool :=
  existsb (String.eqb x) l.

End Str.

(** ** The part of [pathlib] the program relies on *)

Module Pathlib.

(** A path is its textual form, components separated by [/]. *)
Definition Path : Type := string.

(** [Path.name]: the final component. *)
Definition name (p : Path) : string :=
  match Str.rfind "/"%char p with
  | Some i => Str.drop (S i) p
  | None => p
  end.

(** [Path.suffix] and [Path.stem] (CPython 3.8 to 3.13):
<<
    i = name.rfind('.')
    if 0 < i < len(name) - 1: return name[i:]   /  name[:i]
    else:                     return ''         /  name
>> *)
Definition splits (nm : string) : option nat :=
  match Str.rfind "."%char nm with
  | Some i =>
      if (0 <? i)%nat && (i <? String.length nm - 1)%nat then Some i else None
  | None => None
  end.

Definition suffix (p : Path) : string :=
  match splits (name p) with
  | Some i => Str.drop i (name p)
  | None => EmptyString
  end.

Definition stem (p : Path) : string :=
  match splits (name p) with
  | Some i => Str.take i (name p)
  | None => name p
  end.

End Pathlib.

Import Pathlib.

(** ** The pure methods of [RawOrganizer] *)

(** [self.raw_extensions], the set literal of [__init__]. *)
Definition raw_extensions_literal : gset string :=
  {[ ".cr2"; ".cr3"; ".nef"; ".arw"; ".dng"; ".orf"; ".rw2"; ".pef"; ".srw"; ".x3f" ]}.

(** The list literal of [discover_files]. *)
Definition jpg_extensions : list string := [".jpg"; ".jpeg"].

Definition get_base_name (file_path : Path) : string := stem file_path.

(** The set comprehension on the first line of [find_matches]. *)
Definition anchor_base_names (anchor_files : list Path) : gset string :=
  list_to_set (get_base_name <$> anchor_files).

(** [find_matches]: the loop adds the base name of every target that is
    found in [anchor_base_names]. *)
Definition find_matches (anchor_files target_files : list Path) : gset string :=
  let anchor_base_names := anchor_base_names anchor_files in
  foldl (fun matching_targets target_file =>
           let target_base := get_base_name target_file in
           if decide (target_base ∈ anchor_base_names)
           then matching_targets ∪ {[ target_base ]}
           else matching_targets)
        ∅ target_files.

(** [find_orphaned_files]: the loop appends every target whose base name
    is not among the matches. *)
Definition find_orphaned_files (anchor_files target_files : list Path) : list Path :=
  let matching_bases := find_matches anchor_files target_files in
  foldl (fun orphaned target_file =>
           let target_base := get_base_name target_file in
           if decide (target_base ∉ matching_bases)
           then orphaned ++ [target_file]
           else orphaned)
        [] target_files.

(** ** The world the program runs in *)

Inductive Kind := RegularFile | Directory.

(** The file system: every existing path with its kind, in the order a
    recursive traversal yields them, and the paths whose removal the
    operating system refuses. *)
Record FS := mkFS {
  tree : list (Path * Kind);
  locked : list Path
}.

Definition kind_of (fs : FS) (p : Path) : option Kind :=
  snd <$> List.find (fun e => String.eqb (fst e) p) (tree fs).

(** [Path.exists()] and [Path.is_file()]. *)
Definition exists_ (fs : FS) (p : Path) : bool :=
  match kind_of fs p with Some _ => true | None => false end.

Definition is_file (fs : FS) (p : Path) : bool :=
  match kind_of fs p with Some RegularFile => true | _ => false end.

(** [root.rglob('*')]: every path strictly below [root], in tree order. *)
Definition rglob (fs : FS) (root : Path) : list Path :=
  List.filter (String.prefix (root +:+ "/")) (fst <$> tree fs).

(** Exceptions (all of them subclasses of [Exception]) with their [str]. *)
Inductive Exn :=
  | FileNotFoundError (msg : string)
  | PermissionError (msg : string)
  | IsADirectoryError (msg : string)
  | ValueError (msg : string)
  | EOFError (msg : string).

Definition exn_str (e : Exn) : string :=
  match e with
  | FileNotFoundError m | PermissionError m | IsADirectoryError m
  | ValueError m | EOFError m => m
  end.

(** [Path.unlink()]: removes a regular file that is not locked; raises
    [OSError] subclasses otherwise. *)
Definition unlink (fs : FS) (p : Path) : Exn + FS :=
  match kind_of fs p with
  | None => inl (FileNotFoundError ("[Errno 2] No such file or directory: '" +:+ p +:+ "'"))
  | Some Directory => inl (IsADirectoryError ("[Errno 21] Is a directory: '" +:+ p +:+ "'"))
  | Some RegularFile =>
      if Str.in_list p (locked fs)
      then inl (PermissionError ("[Errno 13] Permission denied: '" +:+ p +:+ "'"))
      else inr (mkFS (List.filter (fun e => negb (String.eqb (fst e) p)) (tree fs))
                     (locked fs))
  end.

(** The methods and functions of the program, for the call events. *)
Inductive Method :=
  | m_init | m_discover_files | m_find_orphaned_files | m_delete_files
  | m_organize_files | m_print_organization_report.

(** What a run does, in order: lines printed, prompts answered, unlink
    attempts, and the entry of each method (the last is bookkeeping that
    lets a statement say a stage did not run). *)
Inductive Event :=
  | Printline (line : string)
  | Input (prompt : string)
  | Unlink (p : Path)
  | Call (m : Method).

Record World := mkWorld {
  fs : FS;
  stdin : list string;
  trace : list Event
}.

(** ** A state-and-exception monad *)

Definition M (A : Type) : Type := World -> (Exn + A) * World.

Definition ret {A} (a : A) : M A := fun w => (inr a, w).

Definition bind {A B} (m : M A) (k : A -> M B) : M B :=
  fun w => match m w with
           | (inr a, w') => k a w'
           | (inl e, w') => (inl e, w')
           end.

Definition raise {A} (e : Exn) : M A := fun w => (inl e, w).

(** [try: body except Exception as e: handler] *)
Definition try_except {A} (body : M A) (handler : Exn -> M A) : M A :=
  fun w => match body w with
           | (inr a, w') => (inr a, w')
           | (inl e, w') => handler e w'
           end.

Declare Scope py_scope.
Delimit Scope py_scope with py.
Notation "x <- c1 ;; c2" := (bind c1 (fun x => c2))
  (at level 100, c1 at next level, right associativity) : py_scope.
Notation "c1 ;;; c2" := (bind c1 (fun _ => c2))
  (at level 100, right associativity) : py_scope.
Local Open Scope py_scope.

Definition emit (ev : Event) : M unit :=
  fun w => (inr tt, mkWorld (fs w) (stdin w) (trace w ++ [ev])).

Definition print (line : string) : M unit := emit (Printline line).
Definition called (m : Method) : M unit := emit (Call m).

Definition get_fs : M FS := fun w => (inr (fs w), w).

(** [input(prompt)]: the next line of standard input; [EOFError] when
    there is none. *)
Definition input (prompt : string) : M string :=
  fun w => match stdin w with
           | line :: rest =>
               (inr line, mkWorld (fs w) rest (trace w ++ [Input prompt]))
           | [] =>
               (inl (EOFError "EOF when reading a line"),
                mkWorld (fs w) [] (trace w ++ [Input prompt]))
           end.

Definition do_unlink (p : Path) : M unit :=
  fun w => match unlink (fs w) p with
           | inr fs' => (inr tt, mkWorld fs' (stdin w) (trace w ++ [Unlink p]))
           | inl e => (inl e, mkWorld (fs w) (stdin w) (trace w ++ [Unlink p]))
           end.

(** [for x in l: acc = body(x, acc)] *)
Fixpoint for_each {A S} (l : list A) (body : A -> S -> M S) (acc : S) : M S :=
  match l with
  | [] => ret acc
  | x :: l' => acc' <- body x acc ;; for_each l' body acc'
  end.

(** ** The [RawOrganizer] object and its effectful methods *)

Record RawOrganizer := mkRawOrganizer {
  input_directory : Path;
  jpg_files : list Path;
  raw_files : list Path;
  deleted_files : list Path;
  raw_extensions : gset string
}.

(** [RawOrganizer.__init__].  The directory is the text [Path] keeps for
    the argument, the one [rglob] prefixes to what it yields. *)
Definition init (directory : string) : M RawOrganizer :=
  called m_init ;;;
  fs <- get_fs ;;
  if negb (exists_ fs directory)
  then raise (FileNotFoundError ("Directory " +:+ directory +:+ " does not exist"))
  else ret (mkRawOrganizer directory [] [] [] raw_extensions_literal).

(** The body of the loop of [discover_files], on the two local lists. *)
Definition discover_step (fs : FS) (exts : gset string)
    (acc : list Path * list Path) (file_path : Path) : list Path * list Path :=
  let '(jpg_files, raw_files) := acc in
  if is_file fs file_path then
    let ext := Str.lower (suffix file_path) in
    if Str.in_list ext jpg_extensions then (jpg_files ++ [file_path], raw_files)
    else if decide (ext ∈ exts) then (jpg_files, raw_files ++ [file_path])
    else (jpg_files, raw_files)
  else (jpg_files, raw_files).

Definition scan (fs : FS) (exts : gset string) (root : Path) : list Path * list Path :=
  foldl (discover_step fs exts) ([], []) (rglob fs root).

(** [RawOrganizer.discover_files] *)
Definition discover_files (self : RawOrganizer)
  : M (RawOrganizer * (list Path * list Path)) :=
  called m_discover_files ;;;
  print ("Scanning directory: " +:+ input_directory self) ;;;
  fs <- get_fs ;;
  let '(jpg_files, raw_files) := scan fs (raw_extensions self) (input_directory self) in
  let self := mkRawOrganizer (input_directory self) jpg_files raw_files
                             (deleted_files self) (raw_extensions self) in
  print ("Found " +:+ Str.of_nat (length jpg_files) +:+ " JPG files") ;;;
  print ("Found " +:+ Str.of_nat (length raw_files) +:+ " RAW files") ;;;
  ret (self, (jpg_files, raw_files)).

(** [RawOrganizer.find_orphaned_files] as a stage of a run. *)
Definition call_find_orphaned_files (anchor_files target_files : list Path)
  : M (list Path) :=
  called m_find_orphaned_files ;;;
  ret (find_orphaned_files anchor_files target_files).

(** One iteration of the loop of [delete_files]: the [try] block and its
    handler. *)
Definition delete_step (dry_run : bool) (file_path : Path)
    (deleted_files : list Path) : M (list Path) :=
  try_except
    (if negb dry_run then
       do_unlink file_path ;;;
       let deleted_files := deleted_files ++ [file_path] in
       print ("Deleted: " +:+ file_path) ;;;
       ret deleted_files
     else
       print ("[DRY RUN] Would delete: " +:+ file_path) ;;;
       ret (deleted_files ++ [file_path]))
    (fun e =>
       print ("Error deleting " +:+ file_path +:+ ": " +:+ exn_str e) ;;;
       ret deleted_files).

(** [RawOrganizer.delete_files] *)
Definition delete_files (files_to_delete : list Path) (dry_run : bool)
  : M (list Path) :=
  called m_delete_files ;;;
  for_each files_to_delete (delete_step dry_run) [].

(** The dictionary [organize_files] returns. *)
Record Results := mkResults {
  res_anchor_files : list Path;
  res_target_files : list Path;
  res_orphaned_files : list Path;
  res_deleted_files : list Path;
  res_anchor_type : string;
  res_target_type : string
}.

Definition is_empty (l : list Path) : bool :=
  match l with [] => true | _ => false end.

(** [RawOrganizer.organize_files] *)
Definition organize_files (self : RawOrganizer) (anchor_type : string)
    (dry_run : bool) : M (RawOrganizer * Results) :=
  called m_organize_files ;;;
  roles <-
    (if String.eqb (Str.lower anchor_type) "jpg"
     then ret (jpg_files self, raw_files self, "JPG", "RAW")
     else if String.eqb (Str.lower anchor_type) "raw"
     then ret (raw_files self, jpg_files self, "RAW", "JPG")
     else raise (ValueError "Anchor type must be 'jpg' or 'raw'")) ;;
  let '(anchor_files, target_files, anchor_name, target_name) := roles in
  print (Str.nl +:+ "Organizing with " +:+ anchor_name +:+ " files as anchor...") ;;;
  print ("Anchor files: " +:+ Str.of_nat (length anchor_files)) ;;;
  print ("Target files: " +:+ Str.of_nat (length target_files)) ;;;
  orphaned_files <- call_find_orphaned_files anchor_files target_files ;;
  print (Str.nl +:+ "Found " +:+ Str.of_nat (length orphaned_files)
         +:+ " orphaned " +:+ target_name +:+ " files:") ;;;
  for_each orphaned_files (fun file_path _ => print ("  - " +:+ file_path)) tt ;;;
  self <-
    (if negb (is_empty orphaned_files) then
       if dry_run then
         print (Str.nl +:+ "[DRY RUN] Would delete "
                +:+ Str.of_nat (length orphaned_files)
                +:+ " orphaned " +:+ target_name +:+ " files") ;;;
         ret self
       else
         print (Str.nl +:+ "Deleting " +:+ Str.of_nat (length orphaned_files)
                +:+ " orphaned " +:+ target_name +:+ " files...") ;;;
         deleted <- delete_files orphaned_files false ;;
         ret (mkRawOrganizer (input_directory self) (jpg_files self)
                (raw_files self) (deleted_files self ++ deleted)
                (raw_extensions self))
     else ret self) ;;
  ret (self, mkResults anchor_files target_files orphaned_files
               (deleted_files self) anchor_name target_name).

(** [RawOrganizer.print_organization_report] *)
Definition print_organization_report (results : Results) : M unit :=
  called m_print_organization_report ;;;
  print (Str.nl +:+ Str.repeat "=" 60) ;;;
  print "ORGANIZATION REPORT" ;;;
  print (Str.repeat "=" 60) ;;;
  print ("Anchor files (" +:+ res_anchor_type results +:+ "): "
         +:+ Str.of_nat (length (res_anchor_files results))) ;;;
  print ("Target files (" +:+ res_target_type results +:+ "): "
         +:+ Str.of_nat (length (res_target_files results))) ;;;
  print ("Orphaned files found: " +:+ Str.of_nat (length (res_orphaned_files results))) ;;;
  print ("Files deleted: " +:+ Str.of_nat (length (res_deleted_files results))) ;;;
  (if negb (is_empty (res_orphaned_files results)) then
     print (Str.nl +:+ "Orphaned " +:+ res_target_type results +:+ " files:") ;;;
     for_each (res_orphaned_files results)
              (fun file_path _ => print ("  - " +:+ file_path)) tt
   else ret tt) ;;;
  (if negb (is_empty (res_deleted_files results)) then
     print (Str.nl +:+ "Deleted files:") ;;;
     for_each (res_deleted_files results)
              (fun file_path _ => print ("  - " +:+ file_path)) tt
   else ret tt) ;;;
  print (Str.nl +:+ Str.repeat "=" 60).

(** ** The command line *)

(** [--anchor] has [choices=['jpg', 'raw']]. *)
Inductive AnchorChoice := anchor_jpg | anchor_raw.

Definition anchor_arg (a : AnchorChoice) : string :=
  match a with anchor_jpg => "jpg" | anchor_raw => "raw" end.

(** The namespace [parse_args] returns; [--dry-run] is stored and never
    read. *)
Record Args := mkArgs {
  directory : string;
  anchor : AnchorChoice;
  dry_run_flag : bool;
  execute : bool
}.

(** The [try] block of [main]; every [return] yields exit status 0. *)
Definition main_body (args : Args) : M nat :=
  organizer <- init (directory args) ;;
  found <- discover_files organizer ;;
  let '(organizer, (jpg_files, raw_files)) := found in
  if is_empty jpg_files && is_empty raw_files then
    print "No JPG or RAW files found in the directory." ;;;
    ret 0%nat
  else
    let dry_run := negb (execute args) in
    proceed <-
      (if dry_run then
         print (Str.nl +:+ "[DRY RUN MODE] - No files will be deleted") ;;;
         print "Use --execute flag to actually delete files" ;;;
         ret true
       else
         print (Str.nl +:+ "[EXECUTION MODE] - Files will be deleted!") ;;;
         response <- input "Are you sure you want to proceed? (yes/no): " ;;
         if negb (String.eqb (Str.lower response) "yes") then
           print "Operation cancelled." ;;;
           ret false
         else ret true) ;;
    if proceed : bool then
      done <- organize_files organizer (anchor_arg (anchor args)) dry_run ;;
      let '(organizer, results) := done in
      print_organization_report results ;;;
      ret 0%nat
    else ret 0%nat.

(** [main]: the handler prints the error and calls [sys.exit(1)]. *)
Definition main (args : Args) (w : World) : nat * World :=
  match try_except (main_body args)
                   (fun e => print ("Error: " +:+ exn_str e) ;;; ret 1%nat) w with
  | (inr code, w') => (code, w')
  | (inl _, w') => (1%nat, w')
  end.

(** The lines printed, the paths handed to [unlink] and the methods
    entered, read off a list of events. *)
Definition printed (evs : list Event) : list string :=
  omap (fun ev => match ev with Printline s => Some s | _ => None end) evs.

Definition unlinked (evs : list Event) : list Path :=
  omap (fun ev => match ev with Unlink p => Some p | _ => None end) evs.

Definition entered (evs : list Event) : list Method :=
  omap (fun ev => match ev with Call m => Some m | _ => None end) evs.

Definition stdout (w : World) : list string := printed (trace w).
Definition unlinks (w : World) : list Path := unlinked (trace w).
Definition calls (w : World) : list Method := entered (trace w).

Definition run (args : Args) (fs0 : FS) (answers : list string) : nat * World :=
  main args (mkWorld fs0 answers []).

(** ** Vocabulary for the statements *)

(** The two classes of the scanner, as predicates on a path. *)
Definition is_jpg (fs : FS) (p : Path) : Prop :=
  is_file fs p = true /\ Str.lower (suffix p) ∈ jpg_extensions.

Definition is_raw (fs : FS) (exts : gset string) (p : Path) : Prop :=
  is_file fs p = true /\ Str.lower (suffix p) ∈ exts.

#[global] Instance is_jpg_dec fs p : Decision (is_jpg fs p).
Proof. unfold is_jpg. apply _. Defined.

#[global] Instance is_raw_dec fs exts p : Decision (is_raw fs exts p).
Proof. unfold is_raw. apply _. Defined.

(** The world after some more events, file system and input untouched. *)
Definition log (w : World) (evs : list Event) : World :=
  mkWorld (fs w) (stdin w) (trace w ++ evs).

(** [unlink] succeeds exactly on a regular file that is not locked. *)
Definition deletable (fs : FS) (p : Path) : bool :=
  is_file fs p && negb (Str.in_list p (locked fs)).

(** The file system without the paths of [d]. *)
Definition rm_all (d : list Path) (fs : FS) : FS :=
  mkFS (List.filter (fun e => negb (Str.in_list (fst e) d)) (tree fs)) (locked fs).

(** What the live loop of [delete_files] returns and logs, as functions
    of the file system it starts in. *)
Fixpoint deleted_of (fs : FS) (l : list Path) : list Path :=
  match l with
  | [] => []
  | p :: l' =>
      match unlink fs p with
      | inr fs' => p :: deleted_of fs' l'
      | inl _ => deleted_of fs l'
      end
  end.

Fixpoint delete_events (fs : FS) (l : list Path) : list Event :=
  match l with
  | [] => []
  | p :: l' =>
      match unlink fs p with
      | inr fs' => Unlink p :: Printline ("Deleted: " +:+ p) :: delete_events fs' l'
      | inl e =>
          Unlink p :: Printline ("Error deleting " +:+ p +:+ ": " +:+ exn_str e)
          :: delete_events fs l'
      end
  end.

(** The roles [organize_files] assigns for an anchor choice. *)
Definition anchors_of (self : RawOrganizer) (a : AnchorChoice) : list Path :=
  match a with anchor_jpg => jpg_files self | anchor_raw => raw_files self end.

Definition targets_of (self : RawOrganizer) (a : AnchorChoice) : list Path :=
  match a with anchor_jpg => raw_files self | anchor_raw => jpg_files self end.

Definition anchor_label (a : AnchorChoice) : string :=
  match a with anchor_jpg => "JPG" | anchor_raw => "RAW" end.

Definition target_label (a : AnchorChoice) : string :=
  match a with anchor_jpg => "RAW" | anchor_raw => "JPG" end.

Definition orphans_of (self : RawOrganizer) (a : AnchorChoice) : list Path :=
  find_orphaned_files (anchors_of self a) (targets_of self a).

Definition results_of (self : RawOrganizer) (a : AnchorChoice)
    (deleted : list Path) : Results :=
  mkResults (anchors_of self a) (targets_of self a) (orphans_of self a)
            deleted (anchor_label a) (target_label a).

Definition with_deleted (self : RawOrganizer) (deleted : list Path) : RawOrganizer :=
  mkRawOrganizer (input_directory self) (jpg_files self) (raw_files self)
                 deleted (raw_extensions self).

(** What [organize_files] logs up to and including the list of orphans. *)
Definition organize_events (self : RawOrganizer) (a : AnchorChoice) : list Event :=
  Call m_organize_files
  :: Printline (Str.nl +:+ "Organizing with " +:+ anchor_label a +:+ " files as anchor...")
  :: Printline ("Anchor files: " +:+ Str.of_nat (length (anchors_of self a)))
  :: Printline ("Target files: " +:+ Str.of_nat (length (targets_of self a)))
  :: Call m_find_orphaned_files
  :: Printline (Str.nl +:+ "Found " +:+ Str.of_nat (length (orphans_of self a))
            +:+ " orphaned " +:+ target_label a +:+ " files:")
  :: ((fun p => Printline ("  - " +:+ p)) <$> orphans_of self a).

Definition would_delete_summary (self : RawOrganizer) (a : AnchorChoice) : string :=
  Str.nl +:+ "[DRY RUN] Would delete " +:+ Str.of_nat (length (orphans_of self a))
  +:+ " orphaned " +:+ target_label a +:+ " files".

Definition deleting_summary (self : RawOrganizer) (a : AnchorChoice) : string :=
  Str.nl +:+ "Deleting " +:+ Str.of_nat (length (orphans_of self a))
  +:+ " orphaned " +:+ target_label a +:+ " files...".

(** What the deletion branch of [organize_files] logs in live mode. *)
Definition deletion_events (self : RawOrganizer) (a : AnchorChoice) (fs : FS)
  : list Event :=
  if is_empty (orphans_of self a) then []
  else Printline (deleting_summary self a) :: Call m_delete_files
       :: delete_events fs (orphans_of self a).

(** The organizer [discover_files] leaves behind. *)
Definition scanned (self : RawOrganizer) (fs : FS) : RawOrganizer :=
  let found := scan fs (raw_extensions self) (input_directory self) in
  mkRawOrganizer (input_directory self) (fst found) (snd found)
                 (deleted_files self) (raw_extensions self).

Definition discover_events (self : RawOrganizer) (fs : FS) : list Event :=
  [Call m_discover_files;
   Printline ("Scanning directory: " +:+ input_directory self);
   Printline ("Found " +:+ Str.of_nat (length (jpg_files (scanned self fs))) +:+ " JPG files");
   Printline ("Found " +:+ Str.of_nat (length (raw_files (scanned self fs))) +:+ " RAW files")].

(** The organizer [__init__] builds. *)
Definition fresh (d : string) : RawOrganizer :=
  mkRawOrganizer d [] [] [] raw_extensions_literal.

(** ** Sample directory trees *)

(** Scenario A of the specification, with a nested orphan, mixed case and
    a file the scanner does not track. *)
Definition fs_sample : FS :=
  mkFS [("d", Directory); ("d/a.jpg", RegularFile); ("d/a.cr2", RegularFile);
        ("d/sub", Directory); ("d/sub/b.CR2", RegularFile);
        ("d/IMG.JPG", RegularFile); ("d/notes.txt", RegularFile)] [].

(** Names with several dots and a name that is only a dot and letters. *)
Definition fs_dots : FS :=
  mkFS [("d", Directory); ("d/a.b.jpg", RegularFile); ("d/a.b.cr2", RegularFile);
        ("d/a.cr2", RegularFile); ("d/.jpg", RegularFile)] [].

(** Two orphans, the first of which cannot be removed. *)
Definition fs_locked : FS :=
  mkFS [("d", Directory); ("d/keep.jpg", RegularFile); ("d/keep.cr2", RegularFile);
        ("d/x.cr2", RegularFile); ("d/y.cr2", RegularFile)] ["d/x.cr2"].

(** A directory without pictures. *)
Definition fs_empty : FS := mkFS [("d", Directory); ("d/notes.txt", RegularFile)] [].

(** What a run with [--execute] logs before [organize_files] is entered. *)
Definition live_prefix (d : string) (fs0 : FS) : list Event :=
  Call m_init :: discover_events (fresh d) fs0
  ++ [Printline (Str.nl +:+ "[EXECUTION MODE] - Files will be deleted!");
      Input "Are you sure you want to proceed? (yes/no): "].

(** What a run without [--execute] logs before [organize_files] is entered. *)
Definition dry_prefix (d : string) (fs0 : FS) : list Event :=
  Call m_init :: discover_events (fresh d) fs0
  ++ [Printline (Str.nl +:+ "[DRY RUN MODE] - No files will be deleted");
      Printline "Use --execute flag to actually delete files"].

(** Whether the scan of [d] finds a JPG or a RAW file. *)
Definition found_any (fs0 : FS) (d : string) : bool :=
  negb (is_empty (jpg_files (scanned (fresh d) fs0))
        && is_empty (raw_files (scanned (fresh d) fs0))).

(** The lines of the report. *)
Definition report_lines (results : Results) : list string :=
  [Str.nl +:+ Str.repeat "=" 60; "ORGANIZATION REPORT"; Str.repeat "=" 60;
   "Anchor files (" +:+ res_anchor_type results +:+ "): "
     +:+ Str.of_nat (length (res_anchor_files results));
   "Target files (" +:+ res_target_type results +:+ "): "
     +:+ Str.of_nat (length (res_target_files results));
   "Orphaned files found: " +:+ Str.of_nat (length (res_orphaned_files results));
   "Files deleted: " +:+ Str.of_nat (length (res_deleted_files results))]
  ++ (if is_empty (res_orphaned_files results) then []
      else (Str.nl +:+ "Orphaned " +:+ res_target_type results +:+ " files:")
           :: ((fun p => "  - " +:+ p) <$> res_orphaned_files results))
  ++ (if is_empty (res_deleted_files results) then []
      else (Str.nl +:+ "Deleted files:")
           :: ((fun p => "  - " +:+ p) <$> res_deleted_files results))
  ++ [Str.nl +:+ Str.repeat "=" 60].

(** Whether the first line of standard input confirms a live run. *)
Definition confirmed (answers : list string) : bool :=
  match answers with
  | r :: _ => String.eqb (Str.lower r) "yes"
  | [] => false
  end.

(** * Properties *)

(** ** Strings and paths *)

Section StringFacts.

Lemma in_list_elem_of (x : string) (l : list string) :
  Str.in_list x l = true <-> x ∈ l.
Proof.
  unfold Str.in_list. rewrite existsb_exists. split.
  - intros (y & Hy & Heq). apply String.eqb_eq in Heq. subst.
    by apply list_elem_of_In.
  - intros Hx. exists x. split; [by apply list_elem_of_In | apply String.eqb_refl].
Qed.

Lemma substring_0_app (a r : string) :
  substring 0 (String.length a) (a +:+ r) = a.
Proof. induction a as [|c a IH]; simpl; [by destruct r | by rewrite IH]. Qed.

Lemma substring_skip_app (a r : string) (n : nat) :
  substring (String.length a) n (a +:+ r) = substring 0 n r.
Proof. induction a as [|c a IH]; simpl; [done | apply IH]. Qed.

Lemma substring_0_all (r : string) : substring 0 (String.length r) r = r.
Proof. induction r as [|c r IH]; simpl; [done | by rewrite IH]. Qed.

Lemma length_app (a r : string) :
  String.length (a +:+ r) = String.length a + String.length r.
Proof. induction a as [|c a IH]; simpl; [done | by rewrite IH]. Qed.

Lemma app_cons (c : ascii) (a r : string) :
  String c a +:+ r = String c (a +:+ r).
Proof. reflexivity. Qed.

Lemma app_empty_r (s : string) : s +:+ EmptyString = s.
Proof. induction s as [|c s IH]; [done | by rewrite app_cons, IH]. Qed.

Lemma app_snoc (a : string) (c : ascii) (r : string) :
  (a +:+ String c EmptyString) +:+ r = a +:+ String c r.
Proof. induction a as [|x a IH]; [done | by rewrite !app_cons, IH]. Qed.

Lemma take_app (a r : string) : Str.take (String.length a) (a +:+ r) = a.
Proof. apply substring_0_app. Qed.

Lemma drop_app (a r : string) : Str.drop (String.length a) (a +:+ r) = r.
Proof.
  unfold Str.drop. rewrite substring_skip_app, length_app.
  replace (String.length a + String.length r - String.length a)
    with (String.length r) by lia.
  apply substring_0_all.
Qed.

(** [rfind] finds the last occurrence: the text splits around it and the
    character does not occur in what follows. *)
Lemma rfind_Some (c : ascii) (s : string) (i : nat) :
  Str.rfind c s = Some i ->
  exists a b, s = a +:+ String c b /\ String.length a = i /\ Str.rfind c b = None.
Proof.
  revert i. induction s as [|x s IH]; intros i; simpl; [done|].
  destruct (Str.rfind c s) as [j|] eqn:Hj.
  - intros [= <-]. destruct (IH j eq_refl) as (a & b & -> & <- & Hb).
    by exists (String x a), b.
  - destruct (Ascii.eqb_spec x c) as [->|]; [|done].
    intros [= <-]. by exists EmptyString, s.
Qed.

Lemma rfind_app_last (c : ascii) (a b : string) :
  Str.rfind c b = None -> Str.rfind c (a +:+ String c b) = Some (String.length a).
Proof.
  intros Hb. induction a as [|x a IH]; simpl.
  - by rewrite Hb, Ascii.eqb_refl.
  - by rewrite IH.
Qed.

Lemma rfind_None_app (c : ascii) (a b : string) :
  Str.rfind c a = None -> Str.rfind c b = None -> Str.rfind c (a +:+ b) = None.
Proof.
  intros Ha Hb. induction a as [|x a IH]; simpl in *; [done|].
  destruct (Str.rfind c a); [done|].
  destruct (Ascii.eqb x c); [done|]. by rewrite IH.
Qed.

End StringFacts.

Section PathFacts.

(** A name with a usable last dot: the dot is neither the first nor the
    last character. *)
Lemma splits_Some (nm : string) (i : nat) :
  splits nm = Some i ->
  exists a b, nm = a +:+ String "."%char b /\ String.length a = i /\
              a <> EmptyString /\ b <> EmptyString /\
              Str.rfind "."%char b = None.
Proof.
  unfold splits. destruct (Str.rfind "."%char nm) as [j|] eqn:Hj; [|done].
  destruct (0 <? j)%nat eqn:H0; simpl; [|done].
  destruct (j <? String.length nm - 1)%nat eqn:H1; [|done].
  intros [= <-]. destruct (rfind_Some _ _ _ Hj) as (a & b & -> & <- & Hb).
  exists a, b. apply Nat.ltb_lt in H0, H1.
  rewrite length_app in H1. simpl in H1.
  repeat split; try done.
  - intros ->. simpl in H0. lia.
  - intros ->. simpl in H1. lia.
Qed.

Lemma stem_suffix (p : Path) : name p = stem p +:+ suffix p.
Proof.
  unfold stem, suffix. destruct (splits (name p)) as [i|] eqn:Hs.
  - destruct (splits_Some _ _ Hs) as (a & b & Hn & <- & _).
    rewrite Hn. by rewrite take_app, drop_app.
  - by rewrite app_empty_r.
Qed.

Lemma suffix_shape (p : Path) :
  suffix p = EmptyString \/
  exists e, suffix p = String "."%char e /\ e <> EmptyString /\
            Str.rfind "."%char e = None.
Proof.
  unfold suffix. destruct (splits (name p)) as [i|] eqn:Hs; [|by left].
  destruct (splits_Some _ _ Hs) as (a & b & Hn & <- & _ & Hb & Hr).
  right. exists b. by rewrite Hn, drop_app.
Qed.

(** A final component made of a leading dot and dot-free text has no
    suffix. *)
Lemma name_of_child (d s : string) :
  Str.rfind "/"%char s = None -> name (d +:+ String "/"%char s) = s.
Proof.
  intros Hs. unfold name. rewrite (rfind_app_last _ d s Hs).
  change (S (String.length d)) with (String.length (String "/"%char d)).
  replace (String.length (String "/"%char d))
    with (String.length (d +:+ "/")) by (rewrite length_app; simpl; lia).
  rewrite <- (app_snoc d "/"%char s). apply drop_app.
Qed.

Lemma hidden_name_no_suffix (d s : string) :
  Str.rfind "/"%char s = None -> Str.rfind "."%char s = None ->
  suffix (d +:+ String "/"%char (String "."%char s)) = EmptyString /\
  stem (d +:+ String "/"%char (String "."%char s)) = String "."%char s.
Proof.
  intros Hsl Hdot.
  assert (Hn : name (d +:+ String "/"%char (String "."%char s)) = String "."%char s).
  { apply name_of_child. simpl. by rewrite Hsl. }
  unfold suffix, stem. rewrite Hn. unfold splits. simpl. by rewrite Hdot.
Qed.

End PathFacts.

(** ** Matching and orphans *)

Section Matching.

Lemma elem_of_anchor_base_names (s : string) (l : list Path) :
  s ∈ anchor_base_names l <-> exists a, a ∈ l /\ stem a = s.
Proof.
  unfold anchor_base_names, get_base_name.
  rewrite elem_of_list_to_set, list_elem_of_fmap. naive_solver.
Qed.

Lemma find_matches_loop (A : gset string) (ts : list Path) (acc : gset string) :
  foldl (fun matching_targets target_file =>
           let target_base := get_base_name target_file in
           if decide (target_base ∈ A)
           then matching_targets ∪ {[ target_base ]}
           else matching_targets) acc ts
  = acc ∪ (A ∩ anchor_base_names ts).
Proof.
  revert acc. induction ts as [|t ts IH]; intros acc; simpl.
  - unfold anchor_base_names. simpl. set_solver.
  - rewrite IH. unfold anchor_base_names. simpl.
    case_decide; set_solver.
Qed.

Lemma find_matches_inter (anchors targets : list Path) :
  find_matches anchors targets
  = anchor_base_names anchors ∩ anchor_base_names targets.
Proof. unfold find_matches. rewrite find_matches_loop. set_solver. Qed.

Lemma append_loop_filter {A} (P : A -> Prop) `{!forall x, Decision (P x)}
    (l acc : list A) :
  foldl (fun acc x => if decide (P x) then acc ++ [x] else acc) acc l
  = acc ++ filter P l.
Proof.
  revert acc. induction l as [|x l IH]; intros acc; simpl.
  - by rewrite app_nil_r.
  - rewrite IH, filter_cons. case_decide; [by rewrite <- app_assoc | done].
Qed.

Lemma filter_ext_in {A} (P Q : A -> Prop) `{!forall x, Decision (P x)}
    `{!forall x, Decision (Q x)} (l : list A) :
  (forall x, x ∈ l -> P x <-> Q x) -> filter P l = filter Q l.
Proof.
  induction l as [|x l IH]; intros Hl; [done|].
  rewrite !filter_cons.
  assert (HPQ : P x <-> Q x) by (apply Hl; left).
  rewrite IH by (intros y Hy; apply Hl; by right).
  repeat case_decide; tauto.
Qed.

Lemma find_orphaned_files_filter (anchors targets : list Path) :
  find_orphaned_files anchors targets
  = filter (fun t => get_base_name t ∉ anchor_base_names anchors) targets.
Proof.
  unfold find_orphaned_files.
  rewrite (append_loop_filter
             (fun t => get_base_name t ∉ find_matches anchors targets)).
  simpl. apply filter_ext_in. intros t Ht.
  rewrite find_matches_inter.
  assert (get_base_name t ∈ anchor_base_names targets).
  { apply elem_of_anchor_base_names. by exists t. }
  set_solver.
Qed.

Lemma elem_of_find_orphaned_files (anchors targets : list Path) (t : Path) :
  t ∈ find_orphaned_files anchors targets
  <-> t ∈ targets /\ forall a, a ∈ anchors -> stem a <> stem t.
Proof.
  rewrite find_orphaned_files_filter, list_elem_of_filter.
  rewrite elem_of_anchor_base_names. unfold get_base_name. naive_solver.
Qed.

End Matching.

(** ** Scanning *)

Section Scanning.

Lemma discover_step_eq (fs : FS) (exts : gset string) (j r : list Path) (p : Path) :
  (forall e, e ∈ jpg_extensions -> e ∉ exts) ->
  discover_step fs exts (j, r) p
  = (j ++ (if decide (is_jpg fs p) then [p] else []),
     r ++ (if decide (is_raw fs exts p) then [p] else [])).
Proof.
  intros Hdisj. unfold discover_step.
  destruct (is_file fs p) eqn:Hf.
  - destruct (Str.in_list (Str.lower (suffix p)) jpg_extensions) eqn:Hj.
    + apply in_list_elem_of in Hj.
      rewrite decide_True by done.
      rewrite decide_False by (intros [_ ?]; by eapply Hdisj).
      by rewrite app_nil_r.
    + assert (Str.lower (suffix p) ∉ jpg_extensions).
      { intros Hin. apply in_list_elem_of in Hin. congruence. }
      rewrite (decide_False (P := is_jpg fs p)) by (by intros [_ ?]).
      destruct (decide (Str.lower (suffix p) ∈ exts)).
      * rewrite decide_True by done. by rewrite app_nil_r.
      * rewrite decide_False by (by intros [_ ?]). by rewrite !app_nil_r.
  - rewrite !decide_False by (intros [? _]; congruence). by rewrite !app_nil_r.
Qed.

Lemma discover_loop (fs : FS) (exts : gset string) (l j r : list Path) :
  (forall e, e ∈ jpg_extensions -> e ∉ exts) ->
  foldl (discover_step fs exts) (j, r) l
  = (j ++ filter (is_jpg fs) l, r ++ filter (is_raw fs exts) l).
Proof.
  intros Hdisj. revert j r. induction l as [|p l IH]; intros j r.
  - cbn [foldl]. by rewrite !filter_nil, !app_nil_r.
  - cbn [foldl]. rewrite discover_step_eq by done. rewrite IH.
    rewrite !filter_cons. repeat case_decide; by rewrite <- ?app_assoc.
Qed.

Lemma jpg_not_raw (e : string) :
  e ∈ jpg_extensions -> e ∉ raw_extensions_literal.
Proof.
  unfold jpg_extensions, raw_extensions_literal.
  rewrite !elem_of_cons, elem_of_nil. intros [->|[->|[]]]; set_solver.
Qed.

Lemma scan_filter (fs : FS) (root : Path) :
  scan fs raw_extensions_literal root
  = (filter (is_jpg fs) (rglob fs root),
     filter (is_raw fs raw_extensions_literal) (rglob fs root)).
Proof. unfold scan. by rewrite discover_loop by apply jpg_not_raw. Qed.

End Scanning.

(** ** Running the effectful code *)

Section Effects.

Lemma log_log (w : World) (a b : list Event) : log (log w a) b = log w (a ++ b).
Proof. unfold log. simpl. by rewrite <- app_assoc. Qed.

Lemma log_nil (w : World) : log w [] = w.
Proof. destruct w. unfold log. simpl. by rewrite app_nil_r. Qed.

Lemma printed_app (a b : list Event) : printed (a ++ b) = printed a ++ printed b.
Proof. apply omap_app. Qed.

Lemma unlinked_app (a b : list Event) : unlinked (a ++ b) = unlinked a ++ unlinked b.
Proof. apply omap_app. Qed.

Lemma entered_app (a b : list Event) : entered (a ++ b) = entered a ++ entered b.
Proof. apply omap_app. Qed.

Lemma printed_cons (ev : Event) (l : list Event) :
  printed (ev :: l)
  = match ev with Printline s => s :: printed l | _ => printed l end.
Proof. by destruct ev. Qed.

Lemma unlinked_cons (ev : Event) (l : list Event) :
  unlinked (ev :: l)
  = match ev with Unlink p => p :: unlinked l | _ => unlinked l end.
Proof. by destruct ev. Qed.

Lemma entered_cons (ev : Event) (l : list Event) :
  entered (ev :: l)
  = match ev with Call m => m :: entered l | _ => entered l end.
Proof. by destruct ev. Qed.

Lemma printed_prints (f : Path -> string) (l : list Path) :
  printed ((fun p => Printline (f p)) <$> l) = f <$> l.
Proof. induction l as [|x l IH]; [done|]. cbn. f_equal. exact IH. Qed.

Lemma unlinked_prints (f : Path -> string) (l : list Path) :
  unlinked ((fun p => Printline (f p)) <$> l) = [].
Proof. induction l as [|x l IH]; [done | exact IH]. Qed.

Lemma entered_prints (f : Path -> string) (l : list Path) :
  entered ((fun p => Printline (f p)) <$> l) = [].
Proof. induction l as [|x l IH]; [done | exact IH]. Qed.

Lemma emit_run (ev : Event) (w : World) : emit ev w = (inr tt, log w [ev]).
Proof. reflexivity. Qed.

Lemma print_run (s : string) (w : World) : print s w = (inr tt, log w [Printline s]).
Proof. reflexivity. Qed.

Lemma called_run (m : Method) (w : World) : called m w = (inr tt, log w [Call m]).
Proof. reflexivity. Qed.

Lemma bind_run {A B} (m : M A) (k : A -> M B) (w w' : World) (a : A) :
  m w = (inr a, w') -> bind m k w = k a w'.
Proof. unfold bind. by intros ->. Qed.

Lemma bind_assoc {A B C} (m : M A) (k1 : A -> M B) (k2 : B -> M C) (w : World) :
  bind (bind m k1) k2 w = bind m (fun x => bind (k1 x) k2) w.
Proof. unfold bind. by destruct (m w) as [[e|a] w']. Qed.

Lemma bind_raise {A B} (m : M A) (k : A -> M B) (w w' : World) (e : Exn) :
  m w = (inl e, w') -> bind m k w = (inl e, w').
Proof. unfold bind. by intros ->. Qed.

(** A loop that only prints. *)
Lemma print_loop (f : Path -> string) (l : list Path) (w : World) :
  for_each l (fun file_path _ => print (f file_path)) tt w
  = (inr tt, log w ((fun p => Printline (f p)) <$> l)).
Proof.
  revert w. induction l as [|p l IH]; intros w; simpl.
  - unfold ret. by rewrite log_nil.
  - rewrite (bind_run _ _ _ _ _ (print_run _ _)), IH. by rewrite log_log.
Qed.

(** [delete_files] in a dry run: every file is reported and recorded,
    the file system is not touched. *)
Lemma delete_step_dry (p : Path) (acc : list Path) (w : World) :
  delete_step true p acc w
  = (inr (acc ++ [p]), log w [Printline ("[DRY RUN] Would delete: " +:+ p)]).
Proof. reflexivity. Qed.

Lemma delete_loop_dry (l acc : list Path) (w : World) :
  for_each l (delete_step true) acc w
  = (inr (acc ++ l),
     log w ((fun p => Printline ("[DRY RUN] Would delete: " +:+ p)) <$> l)).
Proof.
  revert acc w. induction l as [|p l IH]; intros acc w; simpl.
  - unfold ret. by rewrite log_nil, app_nil_r.
  - rewrite (bind_run _ _ _ _ _ (delete_step_dry _ _ _)), IH.
    by rewrite log_log, <- app_assoc.
Qed.

Lemma delete_files_dry (l : list Path) (w : World) :
  delete_files l true w
  = (inr l,
     log w (Call m_delete_files
            :: ((fun p => Printline ("[DRY RUN] Would delete: " +:+ p)) <$> l))).
Proof.
  unfold delete_files.
  rewrite (bind_run _ _ _ _ _ (called_run _ _)), delete_loop_dry.
  by rewrite log_log.
Qed.

(** One live iteration: the outcome of [unlink] decides between the two
    notices; the handler swallows the exception. *)
Lemma delete_step_live (p : Path) (acc : list Path) (w : World) :
  delete_step false p acc w
  = match unlink (fs w) p with
    | inr fs' =>
        (inr (acc ++ [p]),
         mkWorld fs' (stdin w) (trace w ++ [Unlink p; Printline ("Deleted: " +:+ p)]))
    | inl e =>
        (inr acc,
         log w [Unlink p;
                Printline ("Error deleting " +:+ p +:+ ": " +:+ exn_str e)])
    end.
Proof.
  unfold delete_step, try_except, bind, do_unlink, print, emit, ret, log. simpl.
  destruct (unlink (fs w) p); simpl; by rewrite <- app_assoc.
Qed.

End Effects.

(** ** The file system under [unlink] *)

Section FileSystem.

Lemma unlink_inr (fs fs' : FS) (p : Path) :
  unlink fs p = inr fs' <-> deletable fs p = true /\ fs' = rm_all [p] fs.
Proof.
  unfold unlink, deletable, is_file, rm_all. simpl.
  destruct (kind_of fs p) as [[]|]; simpl; try (split; [done | by intros [? _]]).
  destruct (Str.in_list p (locked fs)); simpl; [split; [done | by intros [? _]]|].
  split.
  - intros [= <-]. split; [done|]. f_equal.
    clear. induction (tree fs) as [|e l IH]; simpl; [done|].
    rewrite orb_false_r. by rewrite IH.
  - intros [_ ->]. do 2 f_equal.
    clear. induction (tree fs) as [|e l IH]; simpl; [done|].
    rewrite orb_false_r. by rewrite IH.
Qed.

Lemma rm_all_nil (fs : FS) : rm_all [] fs = fs.
Proof.
  destruct fs as [t lk]. unfold rm_all. simpl. f_equal.
  induction t as [|e t IH]; simpl; [done | by rewrite IH].
Qed.

Lemma rm_all_cons (p : Path) (d : list Path) (fs : FS) :
  rm_all d (rm_all [p] fs) = rm_all (p :: d) fs.
Proof.
  unfold rm_all. simpl. f_equal.
  induction (tree fs) as [|[x k] t IH]; simpl; [done|].
  rewrite orb_false_r. unfold Str.in_list in *. simpl.
  destruct (String.eqb_spec x p) as [Heq|Hne]; simpl; [done|].
  destruct (existsb (String.eqb x) d); simpl; by rewrite IH.
Qed.

Lemma kind_of_rm_all (d : list Path) (fs : FS) (p : Path) :
  kind_of (rm_all d fs) p
  = if Str.in_list p d then None else kind_of fs p.
Proof.
  unfold kind_of, rm_all. simpl.
  induction (tree fs) as [|[x k] t IH]; simpl.
  - by destruct (Str.in_list p d).
  - destruct (Str.in_list x d) eqn:Hx; simpl.
    + rewrite IH. destruct (String.eqb_spec x p) as [->|]; [by rewrite Hx | done].
    + destruct (String.eqb_spec x p) as [->|]; [by rewrite Hx | done].
Qed.

Lemma deletable_rm_all (d : list Path) (fs : FS) (p : Path) :
  deletable (rm_all d fs) p = negb (Str.in_list p d) && deletable fs p.
Proof.
  unfold deletable, is_file. rewrite kind_of_rm_all. simpl.
  by destruct (Str.in_list p d).
Qed.

Lemma unlink_inl (fs : FS) (p : Path) :
  deletable fs p = false <-> exists e, unlink fs p = inl e.
Proof.
  split.
  - intros Hd. destruct (unlink fs p) as [e|fs'] eqn:Hu; [by exists e|].
    apply unlink_inr in Hu as [? _]. congruence.
  - intros [e He]. destruct (deletable fs p) eqn:Hd; [|done].
    assert (unlink fs p = inr (rm_all [p] fs)) by (by apply unlink_inr).
    congruence.
Qed.

(** A refused removal stays refused, with the same error, after other
    files have been removed. *)
Lemma unlink_inl_rm_all (d : list Path) (fs : FS) (p : Path) (e : Exn) :
  Str.in_list p d = false ->
  unlink fs p = inl e -> unlink (rm_all d fs) p = inl e.
Proof.
  intros Hp. unfold unlink. rewrite kind_of_rm_all, Hp.
  destruct (kind_of fs p) as [[]|]; simpl; try done.
  by destruct (Str.in_list p (locked fs)).
Qed.

Lemma in_list_singleton (p q : Path) :
  Str.in_list p [q] = false <-> p <> q.
Proof.
  unfold Str.in_list. simpl. rewrite orb_false_r. apply String.eqb_neq.
Qed.

End FileSystem.

(** ** The live loop of [delete_files] *)

Section LiveDeletion.

Lemma delete_loop_live (l acc : list Path) (w : World) :
  for_each l (delete_step false) acc w
  = (inr (acc ++ deleted_of (fs w) l),
     mkWorld (rm_all (deleted_of (fs w) l) (fs w)) (stdin w)
             (trace w ++ delete_events (fs w) l)).
Proof.
  revert acc w. induction l as [|p l IH]; intros acc w.
  - simpl. unfold ret. rewrite rm_all_nil, !app_nil_r. by destruct w.
  - cbn [for_each deleted_of delete_events]. unfold bind.
    rewrite delete_step_live.
    destruct (unlink (fs w) p) as [e|fs1] eqn:Hu.
    + rewrite IH. unfold log. simpl. by rewrite <- app_assoc.
    + rewrite IH. simpl.
      apply unlink_inr in Hu as [_ ->].
      by rewrite rm_all_cons, <- !app_assoc.
Qed.

Lemma delete_files_live (l : list Path) (w : World) :
  delete_files l false w
  = (inr (deleted_of (fs w) l),
     mkWorld (rm_all (deleted_of (fs w) l) (fs w)) (stdin w)
             (trace w ++ Call m_delete_files :: delete_events (fs w) l)).
Proof.
  unfold delete_files.
  rewrite (bind_run _ _ _ _ _ (called_run _ _)), delete_loop_live.
  unfold log. simpl. by rewrite <- app_assoc.
Qed.

Lemma elem_of_deleted_of (fs : FS) (l : list Path) (p : Path) :
  p ∈ deleted_of fs l <-> p ∈ l /\ deletable fs p = true.
Proof.
  revert fs. induction l as [|q l IH]; intros fs; simpl.
  - rewrite elem_of_nil. tauto.
  - destruct (unlink fs q) as [e|fs1] eqn:Hu.
    + assert (Hq : deletable fs q = false) by (apply unlink_inl; eauto).
      rewrite IH, elem_of_cons. split; [tauto|].
      intros [[->|?] ?]; [congruence | tauto].
    + apply unlink_inr in Hu as [Hq ->].
      rewrite !elem_of_cons, IH, deletable_rm_all.
      destruct (decide (p = q)) as [->|Hne]; [tauto|].
      rewrite (proj2 (in_list_singleton p q) Hne). simpl. tauto.
Qed.

Lemma deleted_of_sublist (fs : FS) (l : list Path) :
  sublist (deleted_of fs l) l.
Proof.
  revert fs. induction l as [|q l IH]; intros fs; simpl; [constructor|].
  destruct (unlink fs q); [apply sublist_cons | apply sublist_skip]; apply IH.
Qed.

Lemma delete_events_unlinks (fs : FS) (l : list Path) :
  unlinked (delete_events fs l) = l.
Proof.
  revert fs. induction l as [|q l IH]; intros fs; simpl; [done|].
  destruct (unlink fs q); cbn; by rewrite IH.
Qed.

Lemma delete_events_calls (fs : FS) (l : list Path) :
  entered (delete_events fs l) = [].
Proof.
  revert fs. induction l as [|q l IH]; intros fs; simpl; [done|].
  destruct (unlink fs q); cbn; by rewrite IH.
Qed.

Lemma delete_events_error (fs : FS) (l : list Path) (p : Path) (e : Exn) :
  p ∈ l -> unlink fs p = inl e ->
  Printline ("Error deleting " +:+ p +:+ ": " +:+ exn_str e) ∈ delete_events fs l.
Proof.
  revert fs. induction l as [|q l IH]; intros fs Hin Hu; [by apply elem_of_nil in Hin|].
  simpl. apply elem_of_cons in Hin as [->|Hin].
  - rewrite Hu. right. left.
  - destruct (unlink fs q) as [e'|fs1] eqn:Hq.
    + do 2 right. by apply IH.
    + do 2 right. apply IH; [done|].
      apply unlink_inr in Hq as [Hd ->].
      apply unlink_inl_rm_all; [|done].
      apply in_list_singleton. intros ->.
      assert (deletable fs q = false) by (apply unlink_inl; eauto). congruence.
Qed.

Lemma delete_events_deleted (fs : FS) (l : list Path) (p : Path) :
  p ∈ deleted_of fs l -> Printline ("Deleted: " +:+ p) ∈ delete_events fs l.
Proof.
  revert fs. induction l as [|q l IH]; intros fs; simpl; [by intros ?%elem_of_nil|].
  destruct (unlink fs q) as [e'|fs1] eqn:Hq.
  - intros Hin. do 2 right. by apply IH.
  - intros [->|Hin]%elem_of_cons; [right; left | do 2 right; by apply IH].
Qed.

End LiveDeletion.

(** ** Stepping through monadic code *)

Ltac mstep :=
  lazymatch goal with
  | |- context [bind (bind ?m ?k1) ?k2 ?w] =>
      rewrite (bind_assoc m k1 k2 w); cbv beta
  | |- context [bind (ret ?a) ?k ?w] =>
      change (bind (ret a) k w) with (k a w); cbv beta
  | |- context [bind (print ?s) ?k ?w] =>
      change (bind (print s) k w) with (k tt (log w [Printline s])); cbv beta
  | |- context [bind (called ?m) ?k ?w] =>
      change (bind (called m) k w) with (k tt (log w [Call m])); cbv beta
  | |- context [bind get_fs ?k ?w] =>
      change (bind get_fs k w) with (k (fs w) w); cbv beta
  | |- context [bind (for_each ?l (fun file_path _ => print (@?f file_path)) tt) ?k ?w] =>
      rewrite (bind_run _ k w _ _ (print_loop f l w)); cbv beta
  | |- context [for_each ?l (fun file_path _ => print (@?f file_path)) tt ?w] =>
      rewrite (print_loop f l w)
  | |- context [ret ?a ?w] =>
      change (ret a w) with (@inr Exn _ a, w)
  | |- context [print ?s ?w] =>
      change (print s w) with (@inr Exn _ tt, log w [Printline s])
  end.

Create Rewrite HintDb trace.

#[export] Hint Rewrite printed_app unlinked_app entered_app
  printed_cons unlinked_cons entered_cons
  printed_prints unlinked_prints entered_prints
  delete_events_unlinks delete_events_calls : trace.

Ltac norm_trace :=
  repeat first [rewrite <- app_assoc | progress cbn [app]].

Ltac msteps := repeat (mstep; cbv beta iota zeta); rewrite ?log_log; cbn [app].

Section Stages.

Lemma fs_log (w : World) (evs : list Event) : fs (log w evs) = fs w.
Proof. reflexivity. Qed.

Lemma organize_files_dry (self : RawOrganizer) (a : AnchorChoice) (w : World) :
  organize_files self (anchor_arg a) true w
  = (inr (self, results_of self a (deleted_files self)),
     log w (organize_events self a
            ++ if is_empty (orphans_of self a) then []
               else [Printline (would_delete_summary self a)])).
Proof.
  unfold organize_files, call_find_orphaned_files, results_of, organize_events,
    would_delete_summary, orphans_of.
  destruct a; cbn [anchor_arg anchors_of targets_of anchor_label target_label].
  - change (Str.lower "jpg" =? "jpg")%string with true. cbv iota. msteps.
    destruct (find_orphaned_files (jpg_files self) (raw_files self));
      cbn [is_empty negb]; msteps; by rewrite ?app_nil_r.
  - change (Str.lower "raw" =? "jpg")%string with false.
    change (Str.lower "raw" =? "raw")%string with true. cbv iota. msteps.
    destruct (find_orphaned_files (raw_files self) (jpg_files self));
      cbn [is_empty negb]; msteps; by rewrite ?app_nil_r.
Qed.

Lemma organize_files_live (self : RawOrganizer) (a : AnchorChoice) (w : World) :
  organize_files self (anchor_arg a) false w
  = if is_empty (orphans_of self a)
    then (inr (self, results_of self a (deleted_files self)),
          log w (organize_events self a))
    else
      let deleted := deleted_of (fs w) (orphans_of self a) in
      (inr (with_deleted self (deleted_files self ++ deleted),
            results_of self a (deleted_files self ++ deleted)),
       mkWorld (rm_all deleted (fs w)) (stdin w)
               (trace w ++ organize_events self a
                ++ Printline (deleting_summary self a) :: Call m_delete_files
                :: delete_events (fs w) (orphans_of self a))).
Proof.
  unfold organize_files, call_find_orphaned_files, results_of, organize_events,
    deleting_summary, orphans_of, with_deleted.
  destruct a; cbn [anchor_arg anchors_of targets_of anchor_label target_label].
  - change (Str.lower "jpg" =? "jpg")%string with true. cbv iota. msteps.
    destruct (find_orphaned_files (jpg_files self) (raw_files self)) eqn:Ho;
      cbn [is_empty negb]; msteps; [done|].
    rewrite (bind_run _ _ _ _ _ (delete_files_live _ _)). msteps.
    rewrite fs_log. unfold log. cbn [trace stdin fs deleted_files]. by norm_trace.
  - change (Str.lower "raw" =? "jpg")%string with false.
    change (Str.lower "raw" =? "raw")%string with true. cbv iota. msteps.
    destruct (find_orphaned_files (raw_files self) (jpg_files self)) eqn:Ho;
      cbn [is_empty negb]; msteps; [done|].
    rewrite (bind_run _ _ _ _ _ (delete_files_live _ _)). msteps.
    rewrite fs_log. unfold log. cbn [trace stdin fs deleted_files]. by norm_trace.
Qed.

Lemma organize_files_live_run (self : RawOrganizer) (a : AnchorChoice) (w : World) :
  let deleted := deleted_of (fs w) (orphans_of self a) in
  organize_files self (anchor_arg a) false w
  = (inr (with_deleted self (deleted_files self ++ deleted),
          results_of self a (deleted_files self ++ deleted)),
     mkWorld (rm_all deleted (fs w)) (stdin w)
             (trace w ++ organize_events self a ++ deletion_events self a (fs w))).
Proof.
  cbv zeta. rewrite organize_files_live. unfold deletion_events.
  destruct (orphans_of self a) eqn:Ho; cbn [is_empty]; [|done].
  cbn [deleted_of]. rewrite rm_all_nil, !app_nil_r.
  destruct self, w. reflexivity.
Qed.

Lemma print_organization_report_run (results : Results) (w : World) :
  exists evs,
    print_organization_report results w
    = (inr tt, log w (Call m_print_organization_report :: evs))
    /\ entered evs = [] /\ unlinked evs = [].
Proof.
  unfold print_organization_report.
  destruct results as [an ta orph del aname tname].
  cbn [res_anchor_files res_target_files res_orphaned_files res_deleted_files
       res_anchor_type res_target_type].
  destruct orph as [|o orph], del as [|d del]; cbn [is_empty negb]; msteps;
    eexists; (split; [reflexivity|]);
    autorewrite with trace; done.
Qed.

End Stages.

(** ** Running [main] *)

Section Main.

Lemma init_run_ok (d : string) (w : World) :
  exists_ (fs w) d = true -> init d w = (inr (fresh d), log w [Call m_init]).
Proof. intros H. unfold init. msteps. by rewrite fs_log, H. Qed.

Lemma init_run_missing (d : string) (w : World) :
  exists_ (fs w) d = false ->
  init d w = (inl (FileNotFoundError ("Directory " +:+ d +:+ " does not exist")),
              log w [Call m_init]).
Proof. intros H. unfold init. msteps. by rewrite fs_log, H. Qed.

Lemma discover_files_run (self : RawOrganizer) (w : World) :
  discover_files self w
  = (inr (scanned self (fs w),
          (jpg_files (scanned self (fs w)), raw_files (scanned self (fs w)))),
     log w (discover_events self (fs w))).
Proof.
  unfold discover_files, discover_events, scanned. msteps. rewrite fs_log.
  destruct (scan (fs w) (raw_extensions self) (input_directory self)) as [j r].
  msteps. reflexivity.
Qed.

Lemma input_run (prompt r : string) (rest : list string) (w : World) :
  stdin w = r :: rest ->
  input prompt w = (inr r, mkWorld (fs w) rest (trace w ++ [Input prompt])).
Proof. unfold input. by intros ->. Qed.

Lemma scanned_fresh (d : string) (fs0 : FS) :
  jpg_files (scanned (fresh d) fs0) = fst (scan fs0 raw_extensions_literal d) /\
  raw_files (scanned (fresh d) fs0) = snd (scan fs0 raw_extensions_literal d) /\
  deleted_files (scanned (fresh d) fs0) = [].
Proof. done. Qed.

Lemma nothing_found (j r : list Path) :
  is_empty j && is_empty r = true <-> (j, r) = ([], []).
Proof. destruct j, r; simpl; split; intros; done. Qed.

End Main.

Ltac main_start Hex :=
  unfold run, main, try_except, main_body;
  rewrite (bind_run _ _ _ _ _ (init_run_ok _ (mkWorld _ _ _) Hex));
  rewrite (bind_run _ _ _ _ _ (discover_files_run _ _));
  cbv beta iota zeta.

(** ** Runs that stop after the scan *)

Section EarlyStops.

Lemma run_missing (args : Args) (fs0 : FS) (answers : list string) :
  exists_ fs0 (directory args) = false ->
  run args fs0 answers
  = (1%nat,
     mkWorld fs0 answers
       [Call m_init;
        Printline ("Error: Directory " +:+ directory args +:+ " does not exist")]).
Proof.
  intros Hex. unfold run, main, try_except, main_body.
  rewrite (bind_raise _ _ _ _ _ (init_run_missing _ (mkWorld _ _ _) Hex)).
  msteps. done.
Qed.

Lemma run_nothing (args : Args) (fs0 : FS) (answers : list string) :
  exists_ fs0 (directory args) = true ->
  scan fs0 raw_extensions_literal (directory args) = ([], []) ->
  run args fs0 answers
  = (0%nat,
     mkWorld fs0 answers
       [Call m_init; Call m_discover_files;
        Printline ("Scanning directory: " +:+ directory args);
        Printline "Found 0 JPG files"; Printline "Found 0 RAW files";
        Printline "No JPG or RAW files found in the directory."]).
Proof.
  intros Hex Hscan. main_start Hex.
  destruct (scanned_fresh (directory args) fs0) as (Hj & Hr & _).
  rewrite fs_log. cbn [fs]. rewrite Hj, Hr, Hscan. cbn [fst snd is_empty andb].
  msteps. unfold discover_events. rewrite Hj, Hr, Hscan. done.
Qed.

End EarlyStops.

(** ** The confirmation token *)

Section Confirmation.

Lemma lower_char_y (c : ascii) :
  Str.lower_char c = "y"%char <-> c = "y"%char \/ c = "Y"%char.
Proof.
  split; [|by intros [->| ->]].
  destruct c as [[] [] [] [] [] [] [] []]; vm_compute; intros H;
    first [discriminate H | by left | by right].
Qed.

Lemma lower_char_e (c : ascii) :
  Str.lower_char c = "e"%char <-> c = "e"%char \/ c = "E"%char.
Proof.
  split; [|by intros [->| ->]].
  destruct c as [[] [] [] [] [] [] [] []]; vm_compute; intros H;
    first [discriminate H | by left | by right].
Qed.

Lemma lower_char_s (c : ascii) :
  Str.lower_char c = "s"%char <-> c = "s"%char \/ c = "S"%char.
Proof.
  split; [|by intros [->| ->]].
  destruct c as [[] [] [] [] [] [] [] []]; vm_compute; intros H;
    first [discriminate H | by left | by right].
Qed.

Lemma lower_yes (r : string) :
  Str.lower r = "yes"
  <-> r ∈ ["yes"; "yeS"; "yEs"; "yES"; "Yes"; "YeS"; "YEs"; "YES"].
Proof.
  split.
  - destruct r as [|c1 [|c2 [|c3 [|c4 r]]]]; simpl; try discriminate.
    intros [= H1 H2 H3].
    apply lower_char_y in H1. apply lower_char_e in H2. apply lower_char_s in H3.
    destruct H1 as [-> | ->], H2 as [-> | ->], H3 as [-> | ->];
      repeat first [by left | right].
  - rewrite !elem_of_cons, elem_of_nil.
    intros [->|[->|[->|[->|[->|[->|[->|[->|[]]]]]]]]]; reflexivity.
Qed.

End Confirmation.

(** ** Whole runs in live mode *)

Section LiveRuns.

Variables (args : Args) (fs0 : FS) (r : string) (rest : list string).
Hypothesis Hexec : execute args = true.
Hypothesis Hex : exists_ fs0 (directory args) = true.
Hypothesis Hscan : scan fs0 raw_extensions_literal (directory args) <> ([], []).

Let self := scanned (fresh (directory args)) fs0.

Lemma found_something :
  is_empty (jpg_files self) && is_empty (raw_files self) = false.
Proof.
  destruct (is_empty _ && is_empty _) eqn:Hempty; [|done].
  apply nothing_found in Hempty.
  destruct (scanned_fresh (directory args) fs0) as (Hj & Hr & _).
  subst self. rewrite Hj, Hr in Hempty.
  destruct (scan fs0 raw_extensions_literal (directory args)). by destruct Hscan.
Qed.

Lemma run_live_cancel :
  Str.lower r <> "yes" ->
  run args fs0 (r :: rest)
  = (0%nat, mkWorld fs0 rest (live_prefix (directory args) fs0
                              ++ [Printline "Operation cancelled."])).
Proof.
  intros Hno. main_start Hex. rewrite fs_log. cbn [fs]. fold self.
  rewrite found_something, Hexec. cbn [negb]. msteps.
  rewrite (bind_run _ _ _ _ _ (input_run _ r rest (log (mkWorld _ _ _) _) eq_refl)).
  destruct (String.eqb_spec (Str.lower r) "yes") as [Hyes|_]; [done|].
  cbn [negb]. msteps. unfold log, live_prefix. cbn [fs stdin trace app].
  by norm_trace.
Qed.

Lemma run_live_yes :
  Str.lower r = "yes" ->
  exists evs,
    run args fs0 (r :: rest)
    = (0%nat,
       mkWorld (rm_all (deleted_of fs0 (orphans_of self (anchor args))) fs0) rest
               (live_prefix (directory args) fs0
                ++ organize_events self (anchor args)
                ++ deletion_events self (anchor args) fs0
                ++ Call m_print_organization_report :: evs))
    /\ entered evs = [] /\ unlinked evs = [].
Proof.
  intros Hyes. main_start Hex. rewrite fs_log. cbn [fs]. fold self.
  rewrite found_something, Hexec. cbn [negb]. msteps.
  rewrite (bind_run _ _ _ _ _ (input_run _ r rest (log (mkWorld _ _ _) _) eq_refl)).
  rewrite Hyes. change ("yes" =? "yes")%string with true. cbn [negb]. msteps.
  rewrite (bind_run _ _ _ _ _ (organize_files_live_run _ _ _)).
  cbn [fs stdin trace log app].
  match goal with
  | |- context [bind (print_organization_report ?res) _ ?w] =>
      destruct (print_organization_report_run res w) as (evs & Hrep & Hc & Hu);
      rewrite (bind_run _ _ _ _ _ Hrep)
  end.
  exists evs. split; [|done]. msteps. unfold log, live_prefix.
  cbn [fs stdin trace app]. by norm_trace.
Qed.

End LiveRuns.

(** ** Exit status and printed lines *)

Section Printed.

Lemma elem_of_printed (s : string) (evs : list Event) :
  s ∈ printed evs <-> Printline s ∈ evs.
Proof.
  unfold printed. rewrite list_elem_of_omap. split.
  - intros (ev & Hin & Hev). destruct ev; try done. by injection Hev as ->.
  - intros Hin. by exists (Printline s).
Qed.

Lemma exit_status_live (args : Args) (fs0 : FS) (r : string) (rest : list string) :
  execute args = true -> exists_ fs0 (directory args) = true ->
  Str.lower r = "yes" -> fst (run args fs0 (r :: rest)) = 0%nat.
Proof.
  intros Hexec Hex Hyes.
  destruct (decide (scan fs0 raw_extensions_literal (directory args) = ([], [])))
    as [Hnone|Hsome].
  - by rewrite (run_nothing args fs0 (r :: rest) Hex Hnone).
  - by destruct (run_live_yes args fs0 r rest Hexec Hex Hsome Hyes) as (evs & -> & _).
Qed.

End Printed.

(** ** Scanning again after a deletion *)

Section Rescan.

Lemma not_in_list (p : Path) (d : list Path) :
  Str.in_list p d = false <-> p ∉ d.
Proof.
  rewrite <- in_list_elem_of. by destruct (Str.in_list p d).
Qed.

Lemma rglob_rm_all (d : list Path) (fs0 : FS) (root : Path) :
  rglob (rm_all d fs0) root = filter (fun p => p ∉ d) (rglob fs0 root).
Proof.
  unfold rglob, rm_all. cbn [tree].
  induction (tree fs0) as [|[x k] t IH]; [done|].
  cbn [List.filter fst fmap list_fmap].
  destruct (Str.in_list x d) eqn:Hx; cbn [negb].
  - destruct (String.prefix _ x); [|exact IH].
    rewrite filter_cons, decide_False; [exact IH|].
    intros Hn. apply not_in_list in Hn. congruence.
  - cbn [List.filter fst fmap list_fmap].
    destruct (String.prefix _ x); [|exact IH].
    rewrite filter_cons, decide_True by (by apply not_in_list).
    f_equal. exact IH.
Qed.

Lemma is_file_rm_all (d : list Path) (fs0 : FS) (p : Path) :
  p ∉ d -> is_file (rm_all d fs0) p = is_file fs0 p.
Proof.
  intros Hp. unfold is_file. rewrite kind_of_rm_all.
  by rewrite (proj2 (not_in_list p d) Hp).
Qed.

Lemma scan_rm_all (d : list Path) (fs0 : FS) (root : Path) :
  scan (rm_all d fs0) raw_extensions_literal root
  = (filter (fun p => p ∉ d) (fst (scan fs0 raw_extensions_literal root)),
     filter (fun p => p ∉ d) (snd (scan fs0 raw_extensions_literal root))).
Proof.
  rewrite !scan_filter, rglob_rm_all. cbn [fst snd].
  rewrite !list_filter_filter. f_equal.
  - apply filter_ext_in. intros p _. unfold is_jpg.
    split; [intros [[Hf ?] Hp] | intros [Hp [Hf ?]]];
      rewrite is_file_rm_all in * by done; tauto.
  - apply filter_ext_in. intros p _. unfold is_raw.
    split; [intros [[Hf ?] Hp] | intros [Hp [Hf ?]]];
      rewrite is_file_rm_all in * by done; tauto.
Qed.

Lemma scan_disjoint (fs0 : FS) (root : Path) (p : Path) :
  p ∈ fst (scan fs0 raw_extensions_literal root) ->
  p ∈ snd (scan fs0 raw_extensions_literal root) -> False.
Proof.
  rewrite scan_filter. cbn [fst snd]. rewrite !list_elem_of_filter.
  intros [[_ Hj] _] [[_ Hr] _]. by apply (jpg_not_raw _ Hj).
Qed.

Lemma filter_none {A} (P : A -> Prop) `{!forall x, Decision (P x)} (l : list A) :
  (forall x, x ∈ l -> ~ P x) -> filter P l = [].
Proof.
  induction l as [|x l IH]; intros Hl; [done|].
  rewrite filter_cons, decide_False by (apply Hl; left).
  apply IH. intros y Hy. apply Hl. by right.
Qed.

(** Once every orphan is gone, no target is an orphan: anchors and
    targets are disjoint lists of the same scan. *)
Lemma no_orphans_left (anchors targets : list Path) :
  (forall p, p ∈ anchors -> p ∈ targets -> False) ->
  let gone := find_orphaned_files anchors targets in
  find_orphaned_files (filter (fun p => p ∉ gone) anchors)
                      (filter (fun p => p ∉ gone) targets) = [].
Proof.
  intros Hdisj gone. rewrite find_orphaned_files_filter.
  apply filter_none. intros t Ht Hno.
  apply list_elem_of_filter in Ht as [Hkept Ht].
  destruct (decide (get_base_name t ∈ anchor_base_names anchors)) as [Hin|Hout].
  - apply Hno. apply elem_of_anchor_base_names in Hin as (a & Ha & Hst).
    apply elem_of_anchor_base_names. exists a. split; [|done].
    apply list_elem_of_filter. split; [|done].
    intros Hg. apply elem_of_find_orphaned_files in Hg as [Hg _]. eauto.
  - apply Hkept. subst gone. rewrite find_orphaned_files_filter.
    by apply list_elem_of_filter.
Qed.

End Rescan.

(** * The claims *)

(** C1.  For every anchor list and target list, [find_orphaned_files]
    returns exactly the targets whose stem is not in the set of anchor
    stems, in their original order: it is the filter of the target list by
    that test, hence a sub-sequence of it; no target whose stem is the stem
    of some anchor is in the result, and every target whose stem is the stem
    of no anchor is in it. *)
Theorem find_orphaned_files_spec (anchors targets : list Path) :
  (forall s, s ∈ anchor_base_names anchors <-> exists a, a ∈ anchors /\ stem a = s)
  /\ find_orphaned_files anchors targets
     = filter (fun t => get_base_name t ∉ anchor_base_names anchors) targets
  /\ sublist (find_orphaned_files anchors targets) targets
  /\ (forall t, (exists a, a ∈ anchors /\ stem a = stem t) ->
                t ∉ find_orphaned_files anchors targets)
  /\ (forall t, t ∈ targets -> (forall a, a ∈ anchors -> stem a <> stem t) ->
                t ∈ find_orphaned_files anchors targets).
Proof.
  split; [intros s; apply elem_of_anchor_base_names|].
  split; [apply find_orphaned_files_filter|].
  split; [rewrite find_orphaned_files_filter; apply sublist_filter|].
  split.
  - intros t (a & Ha & Hst) Hin.
    apply elem_of_find_orphaned_files in Hin as [_ Hno]. by apply (Hno a).
  - intros t Ht Hno. by apply elem_of_find_orphaned_files.
Qed.

(** C3, as stated, fails: with one anchor [a.jpg] and one target [b.cr2]
    the result of [find_matches] is not the set of anchor stems. *)
Lemma find_matches_not_anchor_stems :
  find_matches ["d/a.jpg"] ["d/b.cr2"] <> list_to_set (stem <$> ["d/a.jpg"]).
Proof.
  rewrite find_matches_inter. intros Heq.
  assert (Hin : "a" ∈@{gset string} (list_to_set (stem <$> ["d/a.jpg"]))).
  { apply elem_of_list_to_set. left. }
  rewrite <- Heq in Hin. apply elem_of_intersection in Hin as [_ Hin].
  apply elem_of_anchor_base_names in Hin as (t & Ht & Hst).
  apply list_elem_of_singleton in Ht as ->. vm_compute in Hst. discriminate.
Qed.

(** C3, amended.  [find_matches] builds the set of distinct anchor stems
    as an intermediate value ([anchor_base_names]), and returns those of
    them that are also the stem of some target. *)
Theorem find_matches_spec (anchors targets : list Path) :
  (forall s, s ∈ anchor_base_names anchors <-> exists a, a ∈ anchors /\ stem a = s)
  /\ (forall s, s ∈ find_matches anchors targets <->
                (exists a, a ∈ anchors /\ stem a = s) /\
                (exists t, t ∈ targets /\ stem t = s)).
Proof.
  split; [intros s; apply elem_of_anchor_base_names|].
  intros s. rewrite find_matches_inter, elem_of_intersection.
  by rewrite !elem_of_anchor_base_names.
Qed.

(** C7.  The scanner sorts a regular file by its lower-cased suffix: into
    the JPG list when that is [.jpg] or [.jpeg], into the RAW list when it
    is one of the ten RAW suffixes, and nowhere otherwise; the base name used
    for matching is the stem as it is, and a target is kept exactly when an
    anchor has the same stem as a string, so [IMG.JPG] and [img.jpg] are both
    JPG files while [IMG_001] does not match [img_001]. *)
Theorem scan_classifies (fs0 : FS) (root : Path) :
  scan fs0 raw_extensions_literal root
  = (filter (fun p => is_file fs0 p = true /\ Str.lower (suffix p) ∈ jpg_extensions)
            (rglob fs0 root),
     filter (fun p => is_file fs0 p = true /\
                      Str.lower (suffix p) ∈ raw_extensions_literal)
            (rglob fs0 root))
  /\ (forall p, Str.lower (suffix p) ∉ jpg_extensions ->
                Str.lower (suffix p) ∉ raw_extensions_literal ->
                (p ∉ fst (scan fs0 raw_extensions_literal root)) /\
                (p ∉ snd (scan fs0 raw_extensions_literal root)))
  /\ (forall p, get_base_name p = stem p)
  /\ (forall anchors targets t,
        t ∈ find_orphaned_files anchors targets
        <-> t ∈ targets /\ forall a, a ∈ anchors -> stem a <> stem t)
  /\ scan fs_sample raw_extensions_literal "d"
     = (["d/a.jpg"; "d/IMG.JPG"], ["d/a.cr2"; "d/sub/b.CR2"])
  /\ find_orphaned_files ["d/img_001.jpg"] ["d/IMG_001.cr2"] = ["d/IMG_001.cr2"].
Proof.
  split; [exact (scan_filter fs0 root)|].
  split.
  { intros p Hj Hr. rewrite scan_filter. cbn [fst snd].
    rewrite !list_elem_of_filter. unfold is_jpg, is_raw. tauto. }
  split; [done|].
  split; [intros; apply elem_of_find_orphaned_files|].
  split; by vm_compute.
Qed.

(** C10.  Only the last extension is split off a name: the name is its
    stem followed by its suffix, and a suffix is empty or a dot followed by
    dot-free text.  So [a.b.jpg] is a JPG file with stem [a.b], which
    protects [a.b.cr2] and not [a.cr2]; and a name made of a leading dot and
    dot-free text, such as [.jpg], has an empty suffix and is not tracked
    by the scanner. *)
Theorem multi_dot_names :
  (forall p, name p = stem p +:+ suffix p)
  /\ (forall p, suffix p = EmptyString \/
                exists e, suffix p = String "."%char e /\ e <> EmptyString /\
                          Str.rfind "."%char e = None)
  /\ (stem "d/a.b.jpg" = "a.b" /\ suffix "d/a.b.jpg" = ".jpg")
  /\ scan fs_dots raw_extensions_literal "d"
     = (["d/a.b.jpg"], ["d/a.b.cr2"; "d/a.cr2"])
  /\ find_orphaned_files ["d/a.b.jpg"] ["d/a.b.cr2"; "d/a.cr2"] = ["d/a.cr2"]
  /\ (forall d s fs0 acc,
        Str.rfind "/"%char s = None -> Str.rfind "."%char s = None ->
        suffix (d +:+ String "/"%char (String "."%char s)) = EmptyString /\
        discover_step fs0 raw_extensions_literal acc
                      (d +:+ String "/"%char (String "."%char s)) = acc).
Proof.
  split; [apply stem_suffix|].
  split; [apply suffix_shape|].
  split; [by vm_compute|].
  split; [by vm_compute|].
  split; [by vm_compute|].
  intros d s fs0 [j r] Hsl Hdot.
  destruct (hidden_name_no_suffix d s Hsl Hdot) as [Hsuf _].
  split; [done|].
  unfold discover_step. rewrite Hsuf.
  destruct (is_file fs0 _); [|done].
  change (Str.in_list (Str.lower "") jpg_extensions) with false. cbv iota.
  rewrite decide_False; [done|]. unfold raw_extensions_literal. set_solver.
Qed.

(** C8.  When the directory given on the command line does not exist,
    the run ends with exit status 1 after printing one line, the error
    naming the directory; [__init__] is the only method entered, so nothing
    was scanned, and the file system and the input are untouched. *)
Theorem missing_directory_fails (args : Args) (fs0 : FS) (answers : list string) :
  exists_ fs0 (directory args) = false ->
  let '(code, w) := run args fs0 answers in
  code = 1%nat
  /\ stdout w = ["Error: Directory " +:+ directory args +:+ " does not exist"]
  /\ calls w = [m_init]
  /\ unlinks w = []
  /\ fs w = fs0 /\ stdin w = answers.
Proof.
  intros Hex. by rewrite (run_missing args fs0 answers Hex).
Qed.

Lemma missing_directory_fails_witness :
  let '(code, w) := run (mkArgs "nowhere" anchor_jpg true false) fs_sample [] in
  code = 1%nat
  /\ stdout w = ["Error: Directory nowhere does not exist"]
  /\ calls w = [m_init]
  /\ unlinks w = []
  /\ fs w = fs_sample /\ stdin w = [].
Proof.
  apply (missing_directory_fails (mkArgs "nowhere" anchor_jpg true false) fs_sample []).
  reflexivity.
Defined.

(** C9.  When the scan of an existing directory finds neither JPG nor RAW
    files, the run prints the three scan lines and the notice that nothing was
    found, and ends with exit status 0; only [__init__] and [discover_files]
    were entered (no matching, no orphan search, no deletion, no report), no
    prompt was shown and the file system is unchanged. *)
Theorem nothing_found_stops (args : Args) (fs0 : FS) (answers : list string) :
  exists_ fs0 (directory args) = true ->
  scan fs0 raw_extensions_literal (directory args) = ([], []) ->
  let '(code, w) := run args fs0 answers in
  code = 0%nat
  /\ stdout w = ["Scanning directory: " +:+ directory args;
                 "Found 0 JPG files"; "Found 0 RAW files";
                 "No JPG or RAW files found in the directory."]
  /\ calls w = [m_init; m_discover_files]
  /\ unlinks w = []
  /\ fs w = fs0 /\ stdin w = answers.
Proof.
  intros Hex Hscan. by rewrite (run_nothing args fs0 answers Hex Hscan).
Qed.

Lemma nothing_found_stops_witness :
  let '(code, w) := run (mkArgs "d" anchor_jpg true true) fs_empty ["yes"] in
  code = 0%nat
  /\ stdout w = ["Scanning directory: d";
                 "Found 0 JPG files"; "Found 0 RAW files";
                 "No JPG or RAW files found in the directory."]
  /\ calls w = [m_init; m_discover_files]
  /\ unlinks w = []
  /\ fs w = fs_empty /\ stdin w = ["yes"].
Proof.
  apply (nothing_found_stops (mkArgs "d" anchor_jpg true true) fs_empty ["yes"]);
    reflexivity.
Defined.

(** C6.  In a run with [--execute] that found files, the answer to the
    prompt decides: [organize_files] is entered exactly when the answer
    lower-cases to [yes], that is, when it is one of the eight spellings of
    [yes]; for any other answer the run prints "Operation cancelled." last
    and ends with exit status 0, having entered only [__init__] and
    [discover_files] (no orphan search, no deletion) and leaving the file
    system as it was. *)
Theorem confirmation_gate (args : Args) (fs0 : FS) (r : string) (rest : list string) :
  execute args = true ->
  exists_ fs0 (directory args) = true ->
  scan fs0 raw_extensions_literal (directory args) <> ([], []) ->
  let '(code, w) := run args fs0 (r :: rest) in
  (m_organize_files ∈ calls w <-> Str.lower r = "yes")
  /\ (Str.lower r = "yes"
      <-> r ∈ ["yes"; "yeS"; "yEs"; "yES"; "Yes"; "YeS"; "YEs"; "YES"])
  /\ (Str.lower r <> "yes" ->
      code = 0%nat
      /\ last (stdout w) = Some "Operation cancelled."
      /\ calls w = [m_init; m_discover_files]
      /\ unlinks w = []
      /\ fs w = fs0).
Proof.
  intros Hexec Hex Hscan.
  destruct (decide (Str.lower r = "yes")) as [Hyes|Hno].
  - destruct (run_live_yes args fs0 r rest Hexec Hex Hscan Hyes) as (evs & -> & _).
    split; [|split; [apply lower_yes | done]].
    split; [done|]. intros _. unfold calls, live_prefix, organize_events.
    cbn [trace]. autorewrite with trace. cbn. set_solver.
  - rewrite (run_live_cancel args fs0 r rest Hexec Hex Hscan Hno).
    split; [|split; [apply lower_yes|]].
    + split; [|done]. unfold calls, live_prefix, discover_events. cbn.
      set_solver.
    + intros _. unfold stdout, calls, unlinks, live_prefix, discover_events.
      cbn [trace fs]. autorewrite with trace. cbn. done.
Qed.

Lemma confirmation_gate_witness :
  let '(code, w) := run (mkArgs "d" anchor_jpg true true) fs_sample ["no"] in
  (m_organize_files ∈ calls w <-> Str.lower "no" = "yes")
  /\ (Str.lower "no" = "yes"
      <-> "no" ∈ ["yes"; "yeS"; "yEs"; "yES"; "Yes"; "YeS"; "YEs"; "YES"])
  /\ (Str.lower "no" <> "yes" ->
      code = 0%nat
      /\ last (stdout w) = Some "Operation cancelled."
      /\ calls w = [m_init; m_discover_files]
      /\ unlinks w = []
      /\ fs w = fs_sample).
Proof.
  apply (confirmation_gate (mkArgs "d" anchor_jpg true true) fs_sample "no" []).
  - reflexivity.
  - reflexivity.
  - vm_compute. discriminate.
Defined.

(** C2, as stated, fails for the run: in a dry run over the sample tree,
    [organize_files] finds the orphan [d/sub/b.CR2], never enters
    [delete_files], prints no per-file "would delete" notice and reports an
    empty deleted list; the report of the whole run says "Files deleted: 0". *)
Lemma dry_run_records_nothing :
  (let '(r, w) := organize_files (scanned (fresh "d") fs_sample) "jpg" true
                                 (mkWorld fs_sample [] []) in
   exists self' res,
     r = inr (self', res)
     /\ res_orphaned_files res = ["d/sub/b.CR2"]
     /\ res_deleted_files res = []
     /\ ("[DRY RUN] Would delete: d/sub/b.CR2" ∉ stdout w)
     /\ (m_delete_files ∉ calls w))
  /\ "Files deleted: 0" ∈ stdout (snd (run (mkArgs "d" anchor_jpg true false) fs_sample [])).
Proof.
  split.
  - rewrite (organize_files_dry (scanned (fresh "d") fs_sample) anchor_jpg).
    eexists _, _. split; [reflexivity|].
    split; [by vm_compute|]. split; [by vm_compute|].
    split; vm_compute; set_solver.
  - vm_compute. set_solver.
Qed.

(** C2, amended.  [delete_files] called with [dry_run] true returns the
    whole list it was given, prints one "would delete" notice per file and
    leaves the file system alone.  A dry run of [organize_files] does not call
    it: the deleted list of the result is the organizer's list as it was
    (empty for a new organizer), nothing is unlinked, the file system is
    unchanged, and one summary notice with the number of orphans is printed
    when there are any. *)
Theorem dry_run_spec (l : list Path) (self : RawOrganizer) (a : AnchorChoice)
    (w : World) :
  (let '(r, w') := delete_files l true w in
   r = inr l
   /\ stdout w' = stdout w ++ ((fun p => "[DRY RUN] Would delete: " +:+ p) <$> l)
   /\ unlinks w' = unlinks w /\ fs w' = fs w)
  /\ (let '(r, w') := organize_files self (anchor_arg a) true w in
      exists res,
        r = inr (self, res)
        /\ res_orphaned_files res
           = find_orphaned_files (anchors_of self a) (targets_of self a)
        /\ res_deleted_files res = deleted_files self
        /\ calls w' = calls w ++ [m_organize_files; m_find_orphaned_files]
        /\ unlinks w' = unlinks w /\ fs w' = fs w
        /\ (res_orphaned_files res <> [] ->
            last (stdout w')
            = Some (Str.nl +:+ "[DRY RUN] Would delete "
                    +:+ Str.of_nat (length (res_orphaned_files res))
                    +:+ " orphaned " +:+ target_label a +:+ " files"))).
Proof.
  split.
  - rewrite delete_files_dry. unfold stdout, unlinks, log. cbn [trace fs].
    autorewrite with trace. by rewrite app_nil_r.
  - rewrite organize_files_dry. eexists. split; [reflexivity|].
    unfold results_of, calls, unlinks, stdout, log, organize_events.
    cbn [res_orphaned_files res_deleted_files trace fs].
    autorewrite with trace. cbn [app].
    destruct (orphans_of self a) as [|o l'] eqn:Ho; cbn [is_empty];
      autorewrite with trace; cbn [printed unlinked entered omap list_omap];
      rewrite ?app_nil_r; repeat (split; [done|]); [done|].
    intros _. unfold would_delete_summary. rewrite Ho.
    rewrite !app_comm_cons, app_assoc. apply last_snoc.
Qed.

(** C4.  Live deletion never raises: [delete_files] hands every file of
    its list to [unlink], in order, whatever happened to the earlier ones; a
    file whose removal fails is left out of the returned list and an error
    notice with its path and the reason is printed; a file whose removal
    succeeds is in the returned list, is announced as deleted and no longer
    exists.  With two files of which exactly one fails, the returned list is
    the other one alone, in either order; and a confirmed live run over an
    existing directory ends with exit status 0 whatever failed, as in the
    sample run where [d/x.cr2] is locked and [d/y.cr2] is removed. *)
Theorem live_deletion_failures :
  (forall (l : list Path) (w : World),
     let '(r, w') := delete_files l false w in
     exists deleted,
       r = inr deleted
       /\ sublist deleted l
       /\ unlinks w' = unlinks w ++ l
       /\ (forall p e, p ∈ l -> unlink (fs w) p = inl e ->
             (p ∉ deleted) /\
             ("Error deleting " +:+ p +:+ ": " +:+ exn_str e) ∈ stdout w')
       /\ (forall p fs', p ∈ l -> unlink (fs w) p = inr fs' ->
             p ∈ deleted /\ ("Deleted: " +:+ p) ∈ stdout w' /\
             exists_ (fs w') p = false))
  /\ (forall (w : World) (p q : Path) (e : Exn) (fs' : FS),
        p <> q -> unlink (fs w) p = inl e -> unlink (fs w) q = inr fs' ->
        fst (delete_files [p; q] false w) = inr [q] /\
        fst (delete_files [q; p] false w) = inr [q])
  /\ (forall (args : Args) (fs0 : FS) (r : string) (rest : list string),
        execute args = true -> exists_ fs0 (directory args) = true ->
        Str.lower r = "yes" -> fst (run args fs0 (r :: rest)) = 0%nat)
  /\ (let '(code, w) := run (mkArgs "d" anchor_jpg true true) fs_locked ["yes"] in
      code = 0%nat
      /\ unlinks w = ["d/x.cr2"; "d/y.cr2"]
      /\ "Error deleting d/x.cr2: [Errno 13] Permission denied: 'd/x.cr2'" ∈ stdout w
      /\ "Deleted: d/y.cr2" ∈ stdout w
      /\ "Files deleted: 1" ∈ stdout w
      /\ fst <$> tree (fs w) = ["d"; "d/keep.jpg"; "d/keep.cr2"; "d/x.cr2"]).
Proof.
  split; [|split; [|split]].
  - intros l w. rewrite delete_files_live.
    exists (deleted_of (fs w) l).
    split; [done|]. split; [apply deleted_of_sublist|].
    split.
    { unfold unlinks. cbn [trace]. autorewrite with trace. done. }
    split.
    + intros p e Hin Hu. split.
      * intros Hd. apply elem_of_deleted_of in Hd as [_ Hd].
        assert (deletable (fs w) p = false) by (apply unlink_inl; eauto).
        congruence.
      * unfold stdout. cbn [trace]. apply elem_of_printed, elem_of_app. right.
        right. by apply delete_events_error.
    + intros p fs' Hin Hu. apply unlink_inr in Hu as [Hd _].
      assert (Hp : p ∈ deleted_of (fs w) l) by (by apply elem_of_deleted_of).
      split; [done|]. split.
      * unfold stdout. cbn [trace]. apply elem_of_printed, elem_of_app. right.
        right. by apply delete_events_deleted.
      * cbn [fs]. unfold exists_. rewrite kind_of_rm_all.
        by rewrite (proj2 (in_list_elem_of _ _) Hp).
  - intros w p q e fs' Hne Hp Hq. rewrite !delete_files_live. cbn [fst deleted_of].
    rewrite Hp, Hq. apply unlink_inr in Hq as [_ ->].
    rewrite (unlink_inl_rm_all [q] (fs w) p e); [done | | done].
    by apply in_list_singleton.
  - apply exit_status_live.
  - by vm_compute; repeat (split; [set_solver|]).
Qed.

(** C5.  Round trip.  Take the organizer as [__init__] and
    [discover_files] leave it and run [organize_files] in live mode.  Every
    file of the deleted list was an orphan and no longer exists, so scanning
    the tree again lists it neither as JPG nor as RAW, and the orphan search
    on the new scan does not return it.  When the whole orphan list was
    deleted, the orphan search on the new scan returns the empty list; the
    sample tree shows it on whole runs: a confirmed live run removes
    [d/sub/b.CR2] and a following dry run finds no orphan. *)
Theorem live_round_trip (d : string) (a : AnchorChoice) (w : World) :
  (let self := scanned (fresh d) (fs w) in
   let '(r, w') := organize_files self (anchor_arg a) false w in
   exists self' res,
     r = inr (self', res)
     /\ sublist (res_deleted_files res) (res_orphaned_files res)
     /\ (forall p, p ∈ res_deleted_files res ->
           exists_ (fs w') p = false
           /\ (p ∉ jpg_files (scanned self' (fs w')))
           /\ (p ∉ raw_files (scanned self' (fs w')))
           /\ (p ∉ orphans_of (scanned self' (fs w')) a))
     /\ (res_deleted_files res = res_orphaned_files res ->
         orphans_of (scanned self' (fs w')) a = []))
  /\ (let w1 := snd (run (mkArgs "d" anchor_jpg true true) fs_sample ["yes"]) in
      let w2 := snd (run (mkArgs "d" anchor_jpg true false) (fs w1) []) in
      unlinks w1 = ["d/sub/b.CR2"]
      /\ exists_ (fs w1) "d/sub/b.CR2" = false
      /\ (Str.nl +:+ "Found 0 orphaned RAW files:") ∈ stdout w2).
Proof.
  split; [|vm_compute; repeat split; repeat constructor].
  cbv zeta. rewrite organize_files_live_run. cbv zeta.
  set (self := scanned (fresh d) (fs w)).
  set (gone := deleted_of (fs w) (orphans_of self a)).
  eexists _, _. split; [reflexivity|].
  cbn [res_deleted_files res_orphaned_files results_of fs].
  change (deleted_files self ++ gone) with gone.
  assert (Hscan2 :
    jpg_files (scanned (with_deleted self gone) (rm_all gone (fs w)))
      = filter (fun p => p ∉ gone) (jpg_files self) /\
    raw_files (scanned (with_deleted self gone) (rm_all gone (fs w)))
      = filter (fun p => p ∉ gone) (raw_files self)).
  { unfold self, scanned, with_deleted, fresh.
    cbn [jpg_files raw_files raw_extensions input_directory].
    by rewrite scan_rm_all. }
  destruct Hscan2 as [Hj2 Hr2].
  assert (Hdisj : forall p, p ∈ jpg_files self -> p ∈ raw_files self -> False).
  { intros p. apply scan_disjoint. }
  split; [apply deleted_of_sublist|]. split.
  - intros p Hp.
    assert (Hnj : p ∉ jpg_files (scanned (with_deleted self gone) (rm_all gone (fs w)))).
    { rewrite Hj2. intros [Hn _]%list_elem_of_filter. done. }
    assert (Hnr : p ∉ raw_files (scanned (with_deleted self gone) (rm_all gone (fs w)))).
    { rewrite Hr2. intros [Hn _]%list_elem_of_filter. done. }
    split.
    { unfold exists_. rewrite kind_of_rm_all.
      by rewrite (proj2 (in_list_elem_of _ _) Hp). }
    split; [done|]. split; [done|].
    unfold orphans_of. intros [Ht _]%elem_of_find_orphaned_files.
    by destruct a.
  - intros Hall. unfold orphans_of at 1.
    assert (Hgone : gone = find_orphaned_files (anchors_of self a) (targets_of self a))
      by exact Hall.
    destruct a; cbn [anchors_of targets_of] in *; rewrite Hj2, Hr2, Hgone.
    + apply no_orphans_left. eauto.
    + apply no_orphans_left. eauto.
Qed.

(** * Further properties *)

(** ** The remaining shapes of a run *)

Section OtherRuns.

Variables (args : Args) (fs0 : FS) (answers : list string).
Hypothesis Hex : exists_ fs0 (directory args) = true.
Hypothesis Hscan : scan fs0 raw_extensions_literal (directory args) <> ([], []).

Let self := scanned (fresh (directory args)) fs0.

Lemma run_dry :
  execute args = false ->
  exists evs,
    run args fs0 answers
    = (0%nat,
       mkWorld fs0 answers
               (dry_prefix (directory args) fs0
                ++ organize_events self (anchor args)
                ++ (if is_empty (orphans_of self (anchor args)) then []
                    else [Printline (would_delete_summary self (anchor args))])
                ++ Call m_print_organization_report :: evs))
    /\ entered evs = [] /\ unlinked evs = [].
Proof.
  intros Hdry. main_start Hex. rewrite fs_log. cbn [fs].
  rewrite (found_something args fs0 Hscan), Hdry. fold self. cbn [negb]. msteps.
  rewrite (bind_run _ _ _ _ _ (organize_files_dry _ _ _)).
  match goal with
  | |- context [bind (print_organization_report ?res) _ ?w] =>
      destruct (print_organization_report_run res w) as (evs & Hrep & Hc & Hu);
      rewrite (bind_run _ _ _ _ _ Hrep)
  end.
  exists evs. split; [|done]. msteps. unfold log, dry_prefix.
  cbn [fs stdin trace app]. by norm_trace.
Qed.

Lemma run_live_eof :
  execute args = true ->
  run args fs0 []
  = (1%nat,
     mkWorld fs0 [] (live_prefix (directory args) fs0
                     ++ [Printline "Error: EOF when reading a line"])).
Proof.
  intros Hexec. main_start Hex. rewrite fs_log. cbn [fs].
  rewrite (found_something args fs0 Hscan), Hexec. fold self. cbn [negb]. msteps.
  unfold bind at 1. unfold bind at 1. unfold input. cbn [stdin log].
  msteps. unfold log, live_prefix. cbn [fs stdin trace app]. by norm_trace.
Qed.

End OtherRuns.

(** ** Every run has one of six shapes *)

Section RunCases.

Lemma found_any_true (fs0 : FS) (d : string) :
  found_any fs0 d = true -> scan fs0 raw_extensions_literal d <> ([], []).
Proof.
  unfold found_any. intros Hf Hs.
  destruct (scanned_fresh d fs0) as (Hj & Hr & _).
  rewrite Hj, Hr, Hs in Hf. done.
Qed.

Lemma found_any_false (fs0 : FS) (d : string) :
  found_any fs0 d = false -> scan fs0 raw_extensions_literal d = ([], []).
Proof.
  unfold found_any. intros Hf. apply negb_false_iff, nothing_found in Hf.
  destruct (scanned_fresh d fs0) as (Hj & Hr & _). rewrite Hj, Hr in Hf.
  by destruct (scan fs0 raw_extensions_literal d).
Qed.

Lemma confirmed_cons (r : string) (rest : list string) :
  confirmed (r :: rest) = bool_decide (Str.lower r = "yes").
Proof.
  cbn [confirmed]. destruct (String.eqb_spec (Str.lower r) "yes").
  - by rewrite bool_decide_eq_true_2.
  - by rewrite bool_decide_eq_false_2.
Qed.

Lemma sublist_List_filter {A} (f : A -> bool) (l : list A) :
  sublist (List.filter f l) l.
Proof.
  induction l as [|x l IH]; cbn [List.filter]; [constructor|].
  destruct (f x); by constructor.
Qed.

Lemma deleted_of_in_list (fs0 : FS) (l : list Path) (p : Path) :
  p ∉ l -> Str.in_list p (deleted_of fs0 l) = false.
Proof.
  intros Hp. apply not_in_list. intros Hd.
  apply elem_of_deleted_of in Hd as [? _]. done.
Qed.

End RunCases.

(** Splits a goal about [run args fs0 answers] into the six shapes and
    rewrites the run in each. *)
Ltac run_cases args fs0 answers :=
  let Hex := fresh "Hex" in
  let Hfound := fresh "Hfound" in
  let Hscan := fresh "Hscan" in
  let Hexec := fresh "Hexec" in
  let Hyes := fresh "Hyes" in
  let evs := fresh "evs" in
  let Hc := fresh "Hc" in
  let Hu := fresh "Hu" in
  let r := fresh "r" in
  let rest := fresh "rest" in
  destruct (exists_ fs0 (directory args)) eqn:Hex;
  [ destruct (found_any fs0 (directory args)) eqn:Hfound;
    [ pose proof (found_any_true _ _ Hfound) as Hscan;
      destruct (execute args) eqn:Hexec;
      [ destruct answers as [|r rest];
        [ rewrite (run_live_eof args fs0 Hex Hscan Hexec)
        | rewrite ?(confirmed_cons r rest);
          destruct (decide (Str.lower r = "yes")) as [Hyes|Hyes];
          [ rewrite ?(bool_decide_eq_true_2 _ Hyes);
            destruct (run_live_yes args fs0 r rest Hexec Hex Hscan Hyes)
              as (evs & -> & Hc & Hu)
          | rewrite ?(bool_decide_eq_false_2 _ Hyes);
            rewrite (run_live_cancel args fs0 r rest Hexec Hex Hscan Hyes) ] ]
      | destruct (run_dry args fs0 answers Hex Hscan Hexec)
          as (evs & -> & Hc & Hu) ]
    | pose proof (found_any_false _ _ Hfound) as Hscan;
      rewrite (run_nothing args fs0 answers Hex Hscan) ]
  | rewrite (run_missing args fs0 answers Hex) ].

Ltac trace_simpl :=
  unfold stdout, calls, unlinks, live_prefix, dry_prefix, discover_events,
    organize_events, deletion_events;
  cbn [trace fs stdin fst snd andb negb];
  autorewrite with trace;
  cbn [app printed unlinked entered omap list_omap];
  rewrite ?app_nil_r.


(** X2.  What a run hands to [unlink]: a live run over an existing
    directory in which the scan found files and the answer lower-cases to
    [yes] hands over the orphan list of that scan, every file once and in
    order; every other run hands over nothing. *)
Theorem unlink_attempts (args : Args) (fs0 : FS) (answers : list string) :
  unlinks (snd (run args fs0 answers))
  = if exists_ fs0 (directory args) && execute args
       && found_any fs0 (directory args) && confirmed answers
    then orphans_of (scanned (fresh (directory args)) fs0) (anchor args)
    else [].
Proof.
  run_cases args fs0 answers; cbn [snd andb confirmed]; trace_simpl;
    rewrite ?Hu, ?app_nil_r, ?andb_false_r; try done;
    destruct (orphans_of _ _) eqn:Ho; cbn [is_empty]; trace_simpl;
    by rewrite ?Hu, ?app_nil_r.
Qed.

(** X3.  Only orphans are ever handed to [unlink]: whatever the arguments,
    the tree and the input, a path that a run tries to remove is a regular
    file below the directory, its lower-cased suffix belongs to the target
    class (RAW when the anchor is [jpg], JPG when it is [raw]), and no file
    of the anchor class found by the scan has its stem. *)
Theorem only_orphans_unlinked (args : Args) (fs0 : FS) (answers : list string)
    (p : Path) :
  p ∈ unlinks (snd (run args fs0 answers)) ->
  p ∈ rglob fs0 (directory args)
  /\ is_file fs0 p = true
  /\ match anchor args with
     | anchor_jpg => Str.lower (suffix p) ∈ raw_extensions_literal
     | anchor_raw => Str.lower (suffix p) ∈ jpg_extensions
     end
  /\ (forall q, q ∈ anchors_of (scanned (fresh (directory args)) fs0) (anchor args) ->
                stem q <> stem p).
Proof.
  run_cases args fs0 answers; cbn [snd]; trace_simpl; rewrite ?Hu, ?app_nil_r;
    try (by intros ?%elem_of_nil);
    destruct (orphans_of _ _) eqn:Ho; cbn [is_empty]; trace_simpl;
    rewrite ?Hu, ?app_nil_r; try (by intros ?%elem_of_nil).
  rewrite <- Ho. unfold orphans_of.
  intros [Ht Hno]%elem_of_find_orphaned_files. split_and!; [| |  |done].
  - destruct (anchor args); cbn [targets_of] in Ht;
      unfold scanned, fresh in Ht; cbn in Ht; rewrite scan_filter in Ht;
      cbn [fst snd] in Ht; by apply list_elem_of_filter in Ht as [_ ?].
  - destruct (anchor args); cbn [targets_of] in Ht;
      unfold scanned, fresh in Ht; cbn in Ht; rewrite scan_filter in Ht;
      cbn [fst snd] in Ht; by apply list_elem_of_filter in Ht as [[? _] _].
  - destruct (anchor args); cbn [targets_of] in Ht;
      unfold scanned, fresh in Ht; cbn in Ht; rewrite scan_filter in Ht;
      cbn [fst snd] in Ht; by apply list_elem_of_filter in Ht as [[_ ?] _].
Qed.

Lemma only_orphans_unlinked_witness :
  "d/sub/b.CR2" ∈ rglob fs_sample "d"
  /\ is_file fs_sample "d/sub/b.CR2" = true
  /\ Str.lower (suffix "d/sub/b.CR2") ∈ raw_extensions_literal
  /\ (forall q, q ∈ anchors_of (scanned (fresh "d") fs_sample) anchor_jpg ->
                stem q <> stem "d/sub/b.CR2").
Proof.
  apply (only_orphans_unlinked (mkArgs "d" anchor_jpg true true) fs_sample ["yes"]).
  vm_compute. left.
Defined.

(** X4.  Without [--execute] a run is harmless on every tree: it removes
    nothing and tries to remove nothing, never enters [delete_files] and
    reads no input. *)
Theorem dry_run_is_harmless (args : Args) (fs0 : FS) (answers : list string) :
  execute args = false ->
  let w := snd (run args fs0 answers) in
  fs w = fs0 /\ unlinks w = [] /\ (m_delete_files ∉ calls w) /\ stdin w = answers.
Proof.
  intros Hdry. cbv zeta.
  run_cases args fs0 answers; try congruence; cbn [snd fs stdin];
    (split; [done|]); trace_simpl; rewrite ?Hu, ?Hc, ?app_nil_r;
    try (split; [done|]; split; [set_solver | done]).
  destruct (orphans_of _ _) eqn:Ho; cbn [is_empty]; trace_simpl;
    rewrite ?Hu, ?Hc, ?app_nil_r; (split; [done|]); (split; [set_solver|done]).
Qed.

Lemma dry_run_is_harmless_witness :
  let w := snd (run (mkArgs "d" anchor_jpg true false) fs_locked ["yes"]) in
  fs w = fs_locked /\ unlinks w = [] /\ (m_delete_files ∉ calls w)
  /\ stdin w = ["yes"].
Proof.
  apply (dry_run_is_harmless (mkArgs "d" anchor_jpg true false) fs_locked ["yes"]).
  reflexivity.
Defined.

(** X5.  A run leaves alone what it does not hand to [unlink]: every such
    path keeps its kind (or stays absent), the set of locked paths is the
    same, and the tree after the run is the tree before it with some entries
    taken out, order kept. *)
Theorem run_frame (args : Args) (fs0 : FS) (answers : list string) :
  let w := snd (run args fs0 answers) in
  (forall p, p ∉ unlinks w -> kind_of (fs w) p = kind_of fs0 p)
  /\ locked (fs w) = locked fs0
  /\ sublist (tree (fs w)) (tree fs0).
Proof.
  cbv zeta.
  run_cases args fs0 answers; cbn [snd fs]; try done.
  split; [|split; [done | apply sublist_List_filter]].
  intros p. trace_simpl. intros Hp. rewrite kind_of_rm_all.
  rewrite deleted_of_in_list; [done|].
  intros Hin. apply Hp.
  destruct (orphans_of _ _) eqn:Ho; cbn [is_empty]; [by apply elem_of_nil in Hin|].
  trace_simpl. rewrite Hu, app_nil_r. done.
Qed.

(** X6.  Standard input: one line is taken from it in a live run over an
    existing directory in which the scan found files, the answer to the
    prompt; in every other run nothing is read. *)
Theorem input_consumed (args : Args) (fs0 : FS) (answers : list string) :
  stdin (snd (run args fs0 answers))
  = if exists_ fs0 (directory args) && execute args
       && found_any fs0 (directory args)
    then tail answers
    else answers.
Proof.
  run_cases args fs0 answers; cbn [snd stdin andb tail]; try done.
  by rewrite andb_false_r.
Qed.

(** X7.  The methods a run enters, in order: control only moves forward
    through [__init__], [discover_files], [organize_files],
    [find_orphaned_files], [delete_files] and [print_organization_report].  It
    stops after [__init__] when the directory is missing, after
    [discover_files] when nothing was found or a live run was not confirmed,
    and [delete_files] is entered exactly in a confirmed live run with at
    least one orphan. *)
Theorem stages_entered (args : Args) (fs0 : FS) (answers : list string) :
  calls (snd (run args fs0 answers))
  = if negb (exists_ fs0 (directory args)) then [m_init]
    else if negb (found_any fs0 (directory args)) then [m_init; m_discover_files]
    else if execute args && negb (confirmed answers)
         then [m_init; m_discover_files]
    else [m_init; m_discover_files; m_organize_files; m_find_orphaned_files]
         ++ (if execute args
                && negb (is_empty (orphans_of (scanned (fresh (directory args)) fs0)
                                              (anchor args)))
             then [m_delete_files] else [])
         ++ [m_print_organization_report].
Proof.
  run_cases args fs0 answers; cbn [snd andb negb confirmed]; trace_simpl;
    rewrite ?Hc; try done;
    destruct (orphans_of _ _) eqn:Ho; cbn [is_empty negb app]; trace_simpl;
    by rewrite ?Hc.
Qed.

(** X8.  End of input at the prompt: a live run over an existing directory
    in which the scan found files, started with nothing on standard input,
    ends with exit status 1 after printing the error of [input]; nothing was
    handed to [unlink], [organize_files] was not entered and the tree is
    unchanged. *)
Theorem end_of_input_aborts (args : Args) (fs0 : FS) :
  execute args = true ->
  exists_ fs0 (directory args) = true ->
  found_any fs0 (directory args) = true ->
  let '(code, w) := run args fs0 [] in
  code = 1%nat
  /\ last (stdout w) = Some "Error: EOF when reading a line"
  /\ calls w = [m_init; m_discover_files]
  /\ unlinks w = [] /\ fs w = fs0.
Proof.
  intros Hexec Hex Hfound.
  rewrite (run_live_eof args fs0 Hex (found_any_true _ _ Hfound) Hexec).
  trace_simpl. done.
Qed.

Lemma end_of_input_aborts_witness :
  let '(code, w) := run (mkArgs "d" anchor_raw true true) fs_sample [] in
  code = 1%nat
  /\ last (stdout w) = Some "Error: EOF when reading a line"
  /\ calls w = [m_init; m_discover_files]
  /\ unlinks w = [] /\ fs w = fs_sample.
Proof.
  apply (end_of_input_aborts (mkArgs "d" anchor_raw true true) fs_sample);
    reflexivity.
Defined.

(** ** More on [unlink] and the live loop *)

Section LiveLoopFacts.

Lemma deleted_of_none (fs0 : FS) (l : list Path) :
  (forall p, p ∈ l -> deletable fs0 p = false) -> deleted_of fs0 l = [].
Proof.
  induction l as [|p l IH]; intros Hl; [done|]. cbn [deleted_of].
  destruct (proj1 (unlink_inl fs0 p) (Hl p ltac:(left))) as [e ->].
  apply IH. intros q Hq. apply Hl. by right.
Qed.

Lemma deleted_of_all (fs0 : FS) (l : list Path) :
  NoDup l -> (forall p, p ∈ l -> deletable fs0 p = true) -> deleted_of fs0 l = l.
Proof.
  revert fs0. induction l as [|p l IH]; intros fs0 Hnd Hl; [done|].
  apply NoDup_cons in Hnd as [Hp Hnd]. cbn [deleted_of].
  rewrite (proj2 (unlink_inr fs0 (rm_all [p] fs0) p)) by (split; [apply Hl; left | done]).
  f_equal. apply IH; [done|]. intros q Hq. rewrite deletable_rm_all.
  rewrite (proj2 (in_list_singleton q p)) by (intros ->; done).
  apply Hl. by right.
Qed.


Lemma deleted_of_again (fs0 : FS) (l : list Path) :
  deleted_of (rm_all (deleted_of fs0 l) fs0) l = [].
Proof.
  apply deleted_of_none. intros p Hp. rewrite deletable_rm_all.
  destruct (deletable fs0 p) eqn:Hd; [|by rewrite andb_false_r].
  assert (Hin : p ∈ deleted_of fs0 l) by (by apply elem_of_deleted_of).
  by rewrite (proj2 (in_list_elem_of _ _) Hin).
Qed.

End LiveLoopFacts.

(** X9.  The anchor type of [organize_files] is read in lower case, so any
    two spellings that agree in lower case give the same result; when the
    lower-cased text is neither [jpg] nor [raw] the call raises [ValueError]
    before printing anything, and the tree is untouched. *)
Theorem organize_files_anchor_type (self : RawOrganizer) (dry_run : bool) (w : World) :
  (forall t t', Str.lower t = Str.lower t' ->
     organize_files self t dry_run w = organize_files self t' dry_run w)
  /\ (forall t, Str.lower t <> "jpg" -> Str.lower t <> "raw" ->
        let '(r, w') := organize_files self t dry_run w in
        r = inl (ValueError "Anchor type must be 'jpg' or 'raw'")
        /\ stdout w' = stdout w /\ unlinks w' = unlinks w /\ fs w' = fs w).
Proof.
  split.
  - intros t t' Heq. unfold organize_files. by rewrite Heq.
  - intros t Hj Hr. unfold organize_files.
    rewrite (proj2 (String.eqb_neq _ _) Hj), (proj2 (String.eqb_neq _ _) Hr).
    msteps. unfold bind, raise, log. trace_simpl. done.
Qed.

(** X10.  Calling [organize_files] in live mode a second time on the same
    organizer, without scanning again, removes nothing more: the same orphans
    are handed to [unlink] again, the tree stays as the first call left it,
    and the deleted list of the organizer and of the result does not grow. *)
Theorem second_live_call_removes_nothing (self : RawOrganizer) (a : AnchorChoice)
    (w : World) :
  let '(r1, w1) := organize_files self (anchor_arg a) false w in
  exists self1 res1,
    r1 = inr (self1, res1)
    /\ let '(r2, w2) := organize_files self1 (anchor_arg a) false w1 in
       exists self2 res2,
         r2 = inr (self2, res2)
         /\ fs w2 = fs w1
         /\ res_orphaned_files res2 = res_orphaned_files res1
         /\ res_deleted_files res2 = res_deleted_files res1
         /\ deleted_files self2 = deleted_files self1
         /\ unlinks w2 = unlinks w1 ++ res_orphaned_files res1.
Proof.
  rewrite organize_files_live_run. cbv zeta.
  eexists _, _. split; [reflexivity|].
  rewrite organize_files_live_run. cbv zeta. cbn [fs].
  eexists _, _. split; [reflexivity|].
  change (orphans_of (with_deleted self ?d) a) with (orphans_of self a).
  rewrite deleted_of_again, rm_all_nil, app_nil_r.
  cbn [res_orphaned_files res_deleted_files results_of deleted_files with_deleted].
  repeat (split; [done|]).
  unfold deletion_events.
  change (orphans_of (with_deleted self ?d) a) with (orphans_of self a).
  trace_simpl.
  destruct (orphans_of self a) eqn:Ho; cbn [is_empty]; trace_simpl;
    by rewrite ?app_nil_r.
Qed.

(** X11.  [organize_files] keeps the organizer's directory, file lists and
    extension set; its deleted list only grows at the end, by files that were
    orphans of this call, and the deleted list of the result is the
    organizer's list after the call.  *)
Theorem organize_files_keeps_organizer (self : RawOrganizer) (a : AnchorChoice)
    (dry_run : bool) (w : World) :
  let '(r, w') := organize_files self (anchor_arg a) dry_run w in
  exists self' res newly,
    r = inr (self', res)
    /\ input_directory self' = input_directory self
    /\ jpg_files self' = jpg_files self /\ raw_files self' = raw_files self
    /\ raw_extensions self' = raw_extensions self
    /\ deleted_files self' = deleted_files self ++ newly
    /\ sublist newly (res_orphaned_files res)
    /\ res_deleted_files res = deleted_files self'.
Proof.
  destruct dry_run.
  - rewrite organize_files_dry. exists self, (results_of self a (deleted_files self)), [].
    rewrite app_nil_r. repeat (split; [done|]). split; [apply sublist_nil_l | done].
  - rewrite organize_files_live_run. cbv zeta.
    eexists _, _, (deleted_of (fs w) (orphans_of self a)).
    split; [reflexivity|]. cbn. repeat (split; [done|]).
    split; [apply deleted_of_sublist | done].
Qed.


(** X13.  When the files of the list are distinct and each can be removed,
    live deletion returns the list the dry run returns, the whole list, and
    afterwards none of the files exists. *)
Theorem dry_run_predicts_live (l : list Path) (w : World) :
  NoDup l -> (forall p, p ∈ l -> deletable (fs w) p = true) ->
  fst (delete_files l false w) = fst (delete_files l true w)
  /\ fst (delete_files l false w) = inr l
  /\ (forall p, p ∈ l -> exists_ (fs (snd (delete_files l false w))) p = false).
Proof.
  intros Hnd Hl. rewrite delete_files_live, delete_files_dry. cbn [fst snd fs].
  rewrite deleted_of_all by done. repeat (split; [done|]).
  intros p Hp. unfold exists_. rewrite kind_of_rm_all.
  by rewrite (proj2 (in_list_elem_of _ _) Hp).
Qed.

Lemma dry_run_predicts_live_witness :
  let l := ["d/a.cr2"; "d/sub/b.CR2"] in
  let w := mkWorld fs_sample [] [] in
  fst (delete_files l false w) = fst (delete_files l true w)
  /\ fst (delete_files l false w) = inr l
  /\ (forall p, p ∈ l -> exists_ (fs (snd (delete_files l false w))) p = false).
Proof.
  apply (dry_run_predicts_live ["d/a.cr2"; "d/sub/b.CR2"] (mkWorld fs_sample [] [])).
  - repeat constructor; set_solver.
  - intros p Hp. repeat (apply elem_of_cons in Hp as [->|Hp]; [reflexivity|]).
    by apply elem_of_nil in Hp.
Defined.

(** ** Trees with unique paths *)

Section UniquePaths.

Lemma rglob_NoDup (fs0 : FS) (root : Path) :
  NoDup (fst <$> tree fs0) -> NoDup (rglob fs0 root).
Proof. intros Hnd. unfold rglob. apply (sublist_NoDup _ _ Hnd), sublist_List_filter. Qed.

Lemma scan_NoDup (fs0 : FS) (root : Path) :
  NoDup (fst <$> tree fs0) ->
  NoDup (fst (scan fs0 raw_extensions_literal root)) /\
  NoDup (snd (scan fs0 raw_extensions_literal root)).
Proof.
  intros Hnd. rewrite scan_filter. cbn [fst snd].
  split; by apply NoDup_filter, rglob_NoDup.
Qed.

Lemma scan_is_file (fs0 : FS) (root : Path) (p : Path) :
  p ∈ fst (scan fs0 raw_extensions_literal root)
  \/ p ∈ snd (scan fs0 raw_extensions_literal root) ->
  is_file fs0 p = true /\ p ∈ rglob fs0 root.
Proof.
  rewrite scan_filter. cbn [fst snd]. rewrite !list_elem_of_filter.
  unfold is_jpg, is_raw. tauto.
Qed.

End UniquePaths.

(** X14.  On a tree in which no path occurs twice and nothing is locked, a
    live [organize_files] after [__init__] and [discover_files] removes every
    orphan: the deleted list is the orphan list, no orphan exists afterwards,
    and every other path is as it was. *)
Theorem clean_tree_removes_every_orphan (d : string) (a : AnchorChoice) (w : World) :
  NoDup (fst <$> tree (fs w)) -> locked (fs w) = [] ->
  let '(r, w') := organize_files (scanned (fresh d) (fs w)) (anchor_arg a) false w in
  exists self' res,
    r = inr (self', res)
    /\ res_deleted_files res = res_orphaned_files res
    /\ (forall p, p ∈ res_orphaned_files res -> exists_ (fs w') p = false)
    /\ (forall p, p ∉ res_orphaned_files res -> kind_of (fs w') p = kind_of (fs w) p).
Proof.
  intros Hnd Hlk. rewrite organize_files_live_run. cbv zeta.
  set (self := scanned (fresh d) (fs w)).
  assert (Hall : deleted_of (fs w) (orphans_of self a) = orphans_of self a).
  { apply deleted_of_all.
    - unfold orphans_of. rewrite find_orphaned_files_filter. apply NoDup_filter.
      destruct (scan_NoDup (fs w) d Hnd). by destruct a.
    - intros p [Ht _]%elem_of_find_orphaned_files.
      unfold deletable. rewrite Hlk. cbn [Str.in_list existsb negb].
      rewrite andb_true_r.
      apply (scan_is_file (fs w) d). destruct a; [by right | by left]. }
  rewrite Hall. eexists _, _. split; [reflexivity|].
  cbn [res_deleted_files res_orphaned_files results_of fs].
  split; [done|]. split.
  - intros p Hp. unfold exists_. rewrite kind_of_rm_all.
    by rewrite (proj2 (in_list_elem_of _ _) Hp).
  - intros p Hp. rewrite kind_of_rm_all.
    by rewrite (proj2 (not_in_list _ _) Hp).
Qed.

Lemma clean_tree_removes_every_orphan_witness :
  let '(r, w') := organize_files (scanned (fresh "d") fs_sample) "jpg" false
                                 (mkWorld fs_sample ["yes"] []) in
  exists self' res,
    r = inr (self', res)
    /\ res_deleted_files res = res_orphaned_files res
    /\ (forall p, p ∈ res_orphaned_files res -> exists_ (fs w') p = false)
    /\ (forall p, p ∉ res_orphaned_files res ->
                  kind_of (fs w') p = kind_of fs_sample p).
Proof.
  apply (clean_tree_removes_every_orphan "d" anchor_jpg (mkWorld fs_sample ["yes"] [])).
  - cbn. repeat (constructor; [set_solver|]). constructor.
  - reflexivity.
Defined.

(** X15.  Edge cases of the matching: with no anchor file every target is
    an orphan, in order; with no target there is no orphan; and
    [find_matches] returns the empty set as soon as one of its lists is
    empty. *)
Theorem matching_with_empty_lists (files : list Path) :
  find_orphaned_files [] files = files
  /\ find_orphaned_files files [] = []
  /\ find_matches [] files = ∅
  /\ find_matches files [] = ∅.
Proof.
  split; [|split; [done|split; [|done]]].
  - rewrite find_orphaned_files_filter.
    induction files as [|t l IH]; [done|].
    rewrite filter_cons, decide_True, IH; [done|].
    unfold anchor_base_names. cbn. set_solver.
  - rewrite find_matches_inter. unfold anchor_base_names at 1. cbn. set_solver.
Qed.

(** X16.  How the orphan search composes: targets are judged one by one,
    so the search distributes over a concatenation of target lists; searching
    with two anchor lists together is searching with one and then with the
    other on what is left, so more anchors never give more orphans; and
    searching the orphans again with the same anchors changes nothing. *)
Theorem orphan_search_composes (a a' t t' : list Path) :
  find_orphaned_files a (t ++ t') = find_orphaned_files a t ++ find_orphaned_files a t'
  /\ find_orphaned_files (a ++ a') t = find_orphaned_files a' (find_orphaned_files a t)
  /\ sublist (find_orphaned_files (a ++ a') t) (find_orphaned_files a t)
  /\ find_orphaned_files a (find_orphaned_files a t) = find_orphaned_files a t.
Proof.
  assert (Hcat : find_orphaned_files (a ++ a') t
                 = find_orphaned_files a' (find_orphaned_files a t)).
  { rewrite !find_orphaned_files_filter, list_filter_filter.
    apply list_filter_iff. intros x. unfold anchor_base_names.
    rewrite fmap_app, list_to_set_app_L. set_solver. }
  split; [by rewrite !find_orphaned_files_filter, filter_app|].
  split; [done|]. split.
  - rewrite Hcat, (find_orphaned_files_filter a'). apply sublist_filter.
  - rewrite !find_orphaned_files_filter, list_filter_filter.
    apply list_filter_iff. tauto.
Qed.

(** X17.  The orphan search looks at the anchors only through the set of
    their stems: two anchor lists with the same stems give the same orphans,
    so the order of the anchors and repeated anchors make no difference. *)
Theorem orphans_depend_on_anchor_stems (a a' t : list Path) :
  ((forall s, (exists x, x ∈ a /\ stem x = s) <-> (exists x, x ∈ a' /\ stem x = s)) ->
   find_orphaned_files a t = find_orphaned_files a' t)
  /\ (a ≡ₚ a' -> find_orphaned_files a t = find_orphaned_files a' t)
  /\ find_orphaned_files (a ++ a) t = find_orphaned_files a t.
Proof.
  assert (Hstems : forall b b',
    (forall s, (exists x, x ∈ b /\ stem x = s) <-> (exists x, x ∈ b' /\ stem x = s)) ->
    find_orphaned_files b t = find_orphaned_files b' t).
  { intros b b' Hs. rewrite !find_orphaned_files_filter.
    apply list_filter_iff. intros x.
    by rewrite !elem_of_anchor_base_names, (Hs (get_base_name x)). }
  split; [apply Hstems|]. split.
  - intros Hp. apply Hstems. intros s. by setoid_rewrite Hp.
  - apply Hstems. intros s. setoid_rewrite elem_of_app. naive_solver.
Qed.

(** X18.  Base names ignore directories: a file name has the same base
    name and the same suffix in any directory, so an anchor protects the
    targets of its stem wherever they lie in the tree. *)
Theorem base_names_ignore_directories (d d' n m : string) :
  Str.rfind "/"%char n = None -> Str.rfind "/"%char m = None ->
  get_base_name (d +:+ String "/"%char n) = get_base_name (d' +:+ String "/"%char n)
  /\ suffix (d +:+ String "/"%char n) = suffix (d' +:+ String "/"%char n)
  /\ (stem n = stem m ->
      find_orphaned_files [d +:+ String "/"%char n] [d' +:+ String "/"%char m] = []).
Proof.
  intros Hn Hm.
  assert (Hname : forall x s, Str.rfind "/"%char s = None ->
            stem (x +:+ String "/"%char s) = stem s /\
            suffix (x +:+ String "/"%char s) = suffix s).
  { intros x s Hs.
    assert (Hbare : name s = s) by (unfold name; by rewrite Hs).
    unfold stem, suffix. by rewrite (name_of_child x s Hs), Hbare. }
  unfold get_base_name.
  destruct (Hname d n Hn) as [-> ->], (Hname d' n Hn) as [-> ->].
  split; [done|]. split; [done|]. intros Hst.
  rewrite find_orphaned_files_filter. rewrite filter_cons, decide_False; [done|].
  intros Hno. apply Hno, elem_of_anchor_base_names.
  exists (d +:+ String "/"%char n). split; [left|].
  unfold get_base_name. destruct (Hname d' m Hm) as [-> _].
  destruct (Hname d n Hn) as [-> _]. done.
Qed.

Lemma base_names_ignore_directories_witness :
  get_base_name ("2023/jpg" +:+ String "/"%char "IMG_1.jpg")
  = get_base_name ("raw" +:+ String "/"%char "IMG_1.jpg")
  /\ suffix ("2023/jpg" +:+ String "/"%char "IMG_1.jpg")
     = suffix ("raw" +:+ String "/"%char "IMG_1.jpg")
  /\ (stem "IMG_1.jpg" = stem "IMG_1.cr2" ->
      find_orphaned_files ["2023/jpg" +:+ String "/"%char "IMG_1.jpg"]
                          ["raw" +:+ String "/"%char "IMG_1.cr2"] = []).
Proof.
  apply (base_names_ignore_directories "2023/jpg" "raw" "IMG_1.jpg" "IMG_1.cr2");
    reflexivity.
Defined.

(** X19.  The two lists of the scan: each keeps the order of the
    traversal, no path is in both, every listed path is a regular file
    strictly below the scanned directory, so a directory is never listed
    whatever its name, and when no path occurs twice in the tree no path
    occurs twice in the lists. *)
Theorem scan_structure (fs0 : FS) (root : Path) :
  let found := scan fs0 raw_extensions_literal root in
  sublist (fst found) (rglob fs0 root)
  /\ sublist (snd found) (rglob fs0 root)
  /\ (forall p, p ∈ fst found -> p ∉ snd found)
  /\ (forall p, p ∈ fst found \/ p ∈ snd found ->
        kind_of fs0 p = Some RegularFile /\
        String.prefix (root +:+ "/") p = true)
  /\ (NoDup (fst <$> tree fs0) -> NoDup (fst found ++ snd found)).
Proof.
  cbv zeta. split; [|split]; [rewrite scan_filter; apply sublist_filter ..|].
  split; [intros p Hj Hr; by apply (scan_disjoint fs0 root p)|].
  split.
  - intros p Hp. destruct (scan_is_file fs0 root p Hp) as [Hf Hg]. split.
    + unfold is_file in Hf. by destruct (kind_of fs0 p) as [[]|].
    + unfold rglob in Hg. apply list_elem_of_In, filter_In in Hg. tauto.
  - intros Hnd. destruct (scan_NoDup fs0 root Hnd) as [Hj Hr].
    apply NoDup_app. split; [done|]. split; [|done].
    intros p ? ?. by apply (scan_disjoint fs0 root p).
Qed.

(** X20.  What a tracked name looks like: a path is listed by the scan
    only if its final component is a non-empty stem, a dot, and a non-empty
    extension without dots, and that stem is its base name; a path whose
    suffix is empty (no dot, a trailing dot, or only a leading dot) is in
    neither list. *)
Theorem tracked_names (fs0 : FS) (root : Path) (p : Path) :
  let found := scan fs0 raw_extensions_literal root in
  (p ∈ fst found \/ p ∈ snd found ->
   exists a e, name p = a +:+ String "."%char e
               /\ a <> EmptyString /\ e <> EmptyString
               /\ Str.rfind "."%char e = None
               /\ get_base_name p = a /\ suffix p = String "."%char e)
  /\ (suffix p = EmptyString -> (p ∉ fst found) /\ (p ∉ snd found)).
Proof.
  cbv zeta.
  assert (Hsuf : p ∈ fst (scan fs0 raw_extensions_literal root)
                 \/ p ∈ snd (scan fs0 raw_extensions_literal root) ->
                 suffix p <> EmptyString).
  { rewrite scan_filter. cbn [fst snd]. rewrite !list_elem_of_filter.
    unfold is_jpg, is_raw, jpg_extensions, raw_extensions_literal.
    intros H Hs. rewrite Hs in H. cbn in H. set_solver. }
  split.
  - intros Hp. apply Hsuf in Hp. unfold get_base_name, stem, suffix in *.
    destruct (splits (name p)) as [i|] eqn:Hs; [|done].
    destruct (splits_Some _ _ Hs) as (a & e & Hn & <- & Ha & He & Hr).
    exists a, e. rewrite Hn. by rewrite take_app, drop_app.
  - intros Hs. split; intros Hp; apply Hsuf; auto.
Qed.

(** ** The report *)

Section Report.

Lemma print_organization_report_lines (results : Results) (w : World) :
  print_organization_report results w
  = (inr tt, log w (Call m_print_organization_report
                    :: (Printline <$> report_lines results))).
Proof.
  unfold print_organization_report, report_lines.
  destruct results as [an ta orph del aname tname].
  cbn [res_anchor_files res_target_files res_orphaned_files res_deleted_files
       res_anchor_type res_target_type].
  destruct orph as [|o orph], del as [|d del]; cbn [is_empty negb]; msteps;
    repeat first [rewrite fmap_cons | rewrite fmap_app];
    by rewrite <- ?list_fmap_compose.
Qed.

Lemma printed_lines (l : list string) : printed (Printline <$> l) = l.
Proof. induction l as [|x l IH]; [done|]. cbn. f_equal. exact IH. Qed.

Lemma unlinked_lines (l : list string) : unlinked (Printline <$> l) = [].
Proof. induction l as [|x l IH]; [done | exact IH]. Qed.

End Report.

(** X21.  The report only prints: it never raises and leaves the tree and
    the input alone.  It prints eight fixed lines with the four counts, and a
    section for the orphans and one for the deleted files only when the list
    is not empty, a heading followed by one line per file; so the counts
    printed are the lengths of the lists and every orphan and every deleted
    file is listed. *)
Theorem report_output (results : Results) (w : World) :
  let '(r, w') := print_organization_report results w in
  let orphaned := res_orphaned_files results in
  let deleted := res_deleted_files results in
  r = inr tt
  /\ fs w' = fs w /\ stdin w' = stdin w /\ unlinks w' = unlinks w
  /\ length (stdout w')
     = (length (stdout w) + 8
        + (if is_empty orphaned then 0 else 1 + length orphaned)
        + (if is_empty deleted then 0 else 1 + length deleted))%nat
  /\ ("Orphaned files found: " +:+ Str.of_nat (length orphaned)) ∈ stdout w'
  /\ ("Files deleted: " +:+ Str.of_nat (length deleted)) ∈ stdout w'
  /\ (forall p, p ∈ orphaned -> ("  - " +:+ p) ∈ stdout w')
  /\ (forall p, p ∈ deleted -> ("  - " +:+ p) ∈ stdout w').
Proof.
  rewrite print_organization_report_lines. cbv zeta.
  assert (Hout : stdout (log w (Call m_print_organization_report
                                :: (Printline <$> report_lines results)))
                 = stdout w ++ report_lines results).
  { unfold stdout, log. cbn [trace].
    by rewrite printed_app, printed_cons, printed_lines. }
  rewrite Hout. split; [done|]. split; [done|]. split; [done|]. split.
  { unfold unlinks, log. cbn [trace].
    by rewrite unlinked_app, unlinked_cons, unlinked_lines, app_nil_r. }
  unfold report_lines. split.
  { rewrite !List.length_app. cbn [length].
    destruct (res_orphaned_files results), (res_deleted_files results);
      cbn [is_empty length]; rewrite ?length_fmap; cbn [length];
      unfold Path in *; lia. }
  split; [set_solver|]. split; [set_solver|]. split.
  - intros p Hp. destruct (res_orphaned_files results) as [|o l] eqn:Ho;
      [by apply elem_of_nil in Hp|]. cbn [is_empty].
    apply elem_of_app. right. apply elem_of_app. right. apply elem_of_app. left.
    right. apply list_elem_of_fmap. by exists p.
  - intros p Hp. destruct (res_deleted_files results) as [|o l] eqn:Ho;
      [by apply elem_of_nil in Hp|]. cbn [is_empty].
    apply elem_of_app. right. apply elem_of_app. right. apply elem_of_app. right.
    apply elem_of_app. left. right. apply list_elem_of_fmap. by exists p.
Qed.
